(** * Student Migration Analytics: the question-answering pipeline

    A shallow embedding of [GlobalStudentImmigration.py]: the three pipeline
    functions ([initialize_database], [retrieve_from_db],
    [generate_response]), the orchestrator [process_question] and the
    top-level Streamlit script that gates it behind [db_connected].

    Python values are modelled as follows.
    - A [str] is the list of its Unicode code points ([pystr]).
    - [st.session_state] is a record whose fields are [option]s: [None]
      means the key is absent from the session dictionary.
    - Every function of the script runs in the monad [Py]: it threads the
      session, the list of calls made to Streamlit and to the model
      endpoints (the event log), and the state of the outside world, and
      it ends in a value, in a raised [Exception], or in one of Streamlit's
      script-control signals ([st.rerun], [st.stop]), which are not
      [Exception]s and so pass through [except Exception].
    - The language model, the database and the process environment are
      oracles gathered in [Env]; nothing is assumed about what they answer.
      Signals that are not [Exception]s (keyboard interrupt, interpreter
      exit) are outside the model, and so are failures of Streamlit's own
      rendering calls. *)

From Stdlib Require Import List NArith ZArith Bool String Ascii Lia.
Import ListNotations.

Set Implicit Arguments.

(** ** Python strings *)

Definition pystr := list N.

(** The code points of an ASCII literal. *)
Definition u (s : string) : pystr := map N_of_ascii (list_ascii_of_string s).
Arguments u s%_string.

Fixpoint pystr_eqb (a b : pystr) : bool :=
  match a, b with
  | [], [] => true
  | x :: a', y :: b' => N.eqb x y && pystr_eqb a' b'
  | _, _ => false
  end.

(** [x in l] for a list of strings. *)
Definition py_in (x : pystr) (l : list pystr) : bool := existsb (pystr_eqb x) l.

(** Truth value of a string: empty is false. *)
Definition truthy (s : pystr) : bool :=
  match s with [] => false | _ :: _ => true end.

(** [str.isspace] on one code point: the interpreter's white-space table. *)
Definition is_space (c : N) : bool :=
  ((9 <=? c) && (c <=? 13) || (28 <=? c) && (c <=? 32)
   || (c =? 133) || (c =? 160) || (c =? 5760)
   || (8192 <=? c) && (c <=? 8202)
   || (c =? 8232) || (c =? 8233) || (c =? 8239) || (c =? 8287)
   || (c =? 12288))%N.

Fixpoint str_lstrip (s : pystr) : pystr :=
  match s with
  | c :: s' => if is_space c then str_lstrip s' else s
  | [] => []
  end.

Definition str_rstrip (s : pystr) : pystr := rev (str_lstrip (rev s)).

(** [s.strip()] *)
Definition str_strip (s : pystr) : pystr := str_rstrip (str_lstrip s).

Definition is_ascii (c : N) : bool := (c <? 128)%N.

Definition ascii_lower (c : N) : N :=
  if ((65 <=? c) && (c <=? 90))%N then (c + 32)%N else c.

(** ** Exceptions and outcomes *)

Inductive exn : Type :=
| TypeError (msg : pystr)
| KeyError (key : pystr)
| AttributeError (msg : pystr)
| LibraryError (msg : pystr).

(** [str(e)]; a [KeyError] prints the quoted key. *)
Definition str_exn (e : exn) : pystr :=
  match e with
  | KeyError k => u "'" ++ k ++ u "'"
  | TypeError m | AttributeError m | LibraryError m => m
  end.

(** Streamlit's script-control signals. *)
Inductive ctl : Type := RerunException | StopException.

Inductive res (A : Type) : Type :=
| Ret (a : A)
| Raise (e : exn)
| Ctl (c : ctl).
Arguments Ret {A} a.
Arguments Raise {A} e.
Arguments Ctl {A} c.

(** ** Handles built at initialisation *)

Record ChatOpenAI : Type := {
  temperature : Z;
  openai_api_key : pystr }.

Record SQLDatabase : Type := {
  db_uri : pystr;
  include_tables : list pystr;
  sample_rows_in_table_info : Z }.

Record SQLDatabaseChain : Type := {
  chain_llm : ChatOpenAI;
  chain_db : SQLDatabase;
  chain_verbose : bool }.

Inductive Message : Type :=
| SystemMessage (content : pystr)
| HumanMessage (content : pystr).

(** A dictionary with string keys and string values, as returned by the
    chain. *)
Definition pydict := list (pystr * pystr).

Fixpoint dict_get (d : pydict) (k : pystr) : option pystr :=
  match d with
  | [] => None
  | (k', v) :: d' => if pystr_eqb k' k then Some v else dict_get d' k
  end.

(** ** Session state and the event log *)

Definition entry : Type := pystr * pystr.

Record SessionState : Type := {
  db_connected : option bool;
  chat_history : option (list entry);
  llm : option (option ChatOpenAI);
  db : option (option SQLDatabase);
  db_chain : option (option SQLDatabaseChain);
  initialized : option bool;
  show_db_info : option bool;
  selected_question : option pystr }.

Definition empty_session : SessionState :=
  {| db_connected := None; chat_history := None; llm := None; db := None;
     db_chain := None; initialized := None; show_db_info := None;
     selected_question := None |}.

Definition set_db_connected (v : bool) (s : SessionState) : SessionState :=
  {| db_connected := Some v; chat_history := chat_history s; llm := llm s;
     db := db s; db_chain := db_chain s; initialized := initialized s;
     show_db_info := show_db_info s;
     selected_question := selected_question s |}.

Definition set_chat_history (v : list entry) (s : SessionState) : SessionState :=
  {| db_connected := db_connected s; chat_history := Some v; llm := llm s;
     db := db s; db_chain := db_chain s; initialized := initialized s;
     show_db_info := show_db_info s;
     selected_question := selected_question s |}.

Definition set_handles (l : option ChatOpenAI) (d : option SQLDatabase)
    (c : option SQLDatabaseChain) (s : SessionState) : SessionState :=
  {| db_connected := db_connected s; chat_history := chat_history s;
     llm := Some l; db := Some d; db_chain := Some c;
     initialized := initialized s; show_db_info := show_db_info s;
     selected_question := selected_question s |}.

Definition set_initialized (v : bool) (s : SessionState) : SessionState :=
  {| db_connected := db_connected s; chat_history := chat_history s;
     llm := llm s; db := db s; db_chain := db_chain s;
     initialized := Some v; show_db_info := show_db_info s;
     selected_question := selected_question s |}.

Definition set_show_db_info (v : bool) (s : SessionState) : SessionState :=
  {| db_connected := db_connected s; chat_history := chat_history s;
     llm := llm s; db := db s; db_chain := db_chain s;
     initialized := initialized s; show_db_info := Some v;
     selected_question := selected_question s |}.

Definition set_selected_question (v : option pystr) (s : SessionState)
    : SessionState :=
  {| db_connected := db_connected s; chat_history := chat_history s;
     llm := llm s; db := db s; db_chain := db_chain s;
     initialized := initialized s; show_db_info := show_db_info s;
     selected_question := v |}.

(** Calls that leave the script: Streamlit rendering calls, [time.sleep]
    (in milliseconds) and the two model endpoints. *)
Inductive Event : Type :=
| st_error (m : pystr)
| st_success (m : pystr)
| st_info (m : pystr)
| st_warning (m : pystr)
| st_balloons
| st_spinner (m : pystr)
| st_progress (n : N)
| progress_empty
| time_sleep (ms : N)
| chain_call (c : SQLDatabaseChain) (query : pystr)
| llm_call (l : ChatOpenAI) (messages : list Message).

(** The events that reach a language model: the Query Translator's chain
    call and the Answer Synthesizer's chat call. *)
Definition is_pipeline_call (ev : Event) : bool :=
  match ev with
  | chain_call _ _ | llm_call _ _ => true
  | _ => false
  end.

(** The sampling temperature a model call is made with. *)
Definition event_temperature (ev : Event) : option Z :=
  match ev with
  | chain_call c _ => Some (temperature (chain_llm c))
  | llm_call l _ => Some (temperature l)
  | _ => None
  end.

(** ** The outside world *)

Record Env (W : Type) : Type := {
  (** [str.lower] on a string that is not pure ASCII (the interpreter's
      Unicode tables) *)
  unicode_lower : pystr -> pystr;
  (** the process environment read by [os.getenv] *)
  environ : pystr -> option pystr;
  (** the constructors of the three handles: [None] when they succeed *)
  ext_ChatOpenAI : ChatOpenAI -> W -> option exn * W;
  ext_from_uri : SQLDatabase -> W -> option exn * W;
  ext_from_llm : SQLDatabaseChain -> W -> option exn * W;
  (** [db_chain(query)]: generates SQL, runs it, returns a dictionary *)
  run_chain : SQLDatabaseChain -> pystr -> W -> (exn + pydict) * W;
  (** [llm(messages).content] *)
  run_llm : ChatOpenAI -> list Message -> W -> (exn + pystr) * W }.

Record State (W : Type) : Type := {
  session : SessionState;
  events : list Event;
  world : W }.

Definition Py (W A : Type) : Type := State W -> res A * State W.

Section Monad.
Context {W : Type}.

Definition ret {A} (a : A) : Py W A := fun st => (Ret a, st).

Definition raise {A} (e : exn) : Py W A := fun st => (Raise e, st).

Definition signal {A} (c : ctl) : Py W A := fun st => (Ctl c, st).

Definition bind {A B} (m : Py W A) (k : A -> Py W B) : Py W B :=
  fun st =>
    match m st with
    | (Ret a, st') => k a st'
    | (Raise e, st') => (Raise e, st')
    | (Ctl c, st') => (Ctl c, st')
    end.

(** [try: body / except Exception as e: handler e] *)
Definition try_except {A} (body : Py W A) (handler : exn -> Py W A)
    : Py W A :=
  fun st =>
    match body st with
    | (Raise e, st') => handler e st'
    | r => r
    end.

Definition log (ev : Event) : Py W unit :=
  fun st =>
    (Ret tt, {| session := session st; events := events st ++ [ev];
                world := world st |}).

Definition modify (f : SessionState -> SessionState) : Py W unit :=
  fun st =>
    (Ret tt, {| session := f (session st); events := events st;
                world := world st |}).

Definition read {A} (f : SessionState -> A) : Py W A :=
  fun st => (Ret (f (session st)), st).

End Monad.

Declare Scope py_scope.
Delimit Scope py_scope with py.
Notation "x <- c1 ;; c2" := (bind c1 (fun x => c2))
  (at level 100, c1 at next level, right associativity) : py_scope.
Notation "c1 ;; c2" := (bind c1 (fun _ => c2))
  (at level 100, right associativity) : py_scope.
Open Scope py_scope.

(** ** The pipeline *)

Section Program.
Context {W : Type} (E : Env W).

(** [s.lower()] *)
Definition str_lower (s : pystr) : pystr :=
  if forallb is_ascii s then map ascii_lower s else unicode_lower E s.

(** [os.getenv(key, default)] *)
Definition os_getenv (key default : pystr) : pystr :=
  match environ E key with
  | Some v => v
  | None => default
  end.

(** A library constructor: it may raise, and otherwise yields the handle. *)
Definition construct {H : Type} (ext : H -> W -> option exn * W) (h : H)
    : Py W H :=
  fun st =>
    let (r, w) := ext h (world st) in
    let st' := {| session := session st; events := events st; world := w |} in
    match r with
    | None => (Ret h, st')
    | Some e => (Raise e, st')
    end.

Definition not_callable : exn :=
  TypeError (u "'NoneType' object is not callable").

(** [db_chain(query)]; the handle is [None] when initialisation failed. *)
Definition call_db_chain (c : option SQLDatabaseChain) (query : pystr)
    : Py W pydict :=
  match c with
  | None => raise not_callable
  | Some c =>
      log (chain_call c query) ;;
      fun st =>
        let (r, w) := run_chain E c query (world st) in
        let st' :=
          {| session := session st; events := events st; world := w |} in
        match r with
        | inl e => (Raise e, st')
        | inr d => (Ret d, st')
        end
  end.

(** [llm(messages).content] *)
Definition call_llm (l : option ChatOpenAI) (messages : list Message)
    : Py W pystr :=
  match l with
  | None => raise not_callable
  | Some l =>
      log (llm_call l messages) ;;
      fun st =>
        let (r, w) := run_llm E l messages (world st) in
        let st' :=
          {| session := session st; events := events st; world := w |} in
        match r with
        | inl e => (Raise e, st')
        | inr s => (Ret s, st')
        end
  end.

(** [d[k]] *)
Definition getitem (d : pydict) (k : pystr) : Py W pystr :=
  match dict_get d k with
  | Some v => ret v
  | None => raise (KeyError k)
  end.

(** [st.session_state.<name>]: reading an absent key raises. *)
Definition getattr {A} (name : pystr) (f : SessionState -> option A)
    : Py W A :=
  v <- read f ;;
  match v with
  | Some a => ret a
  | None =>
      raise (AttributeError (u "st.session_state has no attribute " ++ name))
  end.

Definition mysql_uri : pystr :=
  u "mysql+pymysql://" ++ u "root" ++ u "@" ++ u "localhost" ++ u ":"
    ++ u "3306" ++ u "/" ++ u "sahasra".

Definition api_key_not_found : pystr :=
  [9888; 65039]%N ++ u " OpenAI API key not found!".

Definition connection_failed : pystr :=
  [10060]%N ++ u " Database connection failed: ".

Definition handles : Type :=
  option ChatOpenAI * option SQLDatabase * option SQLDatabaseChain.

(** The [try] block of [initialize_database]. *)
Definition initialize_database_try : Py W handles :=
  let OPENAI_API_KEY := os_getenv (u "OPENAI_API_KEY") (u "YOUR API KEY") in
  if negb (truthy OPENAI_API_KEY) then
    log (st_error api_key_not_found) ;;
    ret (None, None, None)
  else
    llm <- construct (ext_ChatOpenAI E)
             {| temperature := 0; openai_api_key := OPENAI_API_KEY |} ;;
    db <- construct (ext_from_uri E)
            {| db_uri := mysql_uri;
               include_tables := [u "global_student_migration"];
               sample_rows_in_table_info := 2 |} ;;
    db_chain <- construct (ext_from_llm E)
                  {| chain_llm := llm; chain_db := db;
                     chain_verbose := true |} ;;
    modify (set_db_connected true) ;;
    ret (Some llm, Some db, Some db_chain).

Definition initialize_database : Py W handles :=
  try_except initialize_database_try
    (fun e =>
       log (st_error (connection_failed ++ str_exn e)) ;;
       modify (set_db_connected false) ;;
       ret (None, None, None)).

Definition error_retrieving : pystr := u "Error retrieving data: ".

Definition retrieve_from_db (query : pystr) (db_chain : option SQLDatabaseChain)
    : Py W pystr :=
  try_except
    (db_context <- call_db_chain db_chain query ;;
     result <- getitem db_context (u "result") ;;
     ret (str_strip result))
    (fun e => ret (error_retrieving ++ str_exn e)).

Definition system_message : pystr :=
  u "You are a student migration data expert and analyst.
Your task is to answer user questions using information from a SQL database about global student migration patterns.
Base your answer only on the given context and provide insights when possible.

Guidelines:
- Be conversational and helpful
- Provide specific numbers when available
- Offer context about trends when relevant
- If data is limited, acknowledge it
- Use emojis sparingly but appropriately

Example:
Input: How many students went to Canada?
Context: There are 120 students in the database who went to Canada.
Output: Based on the data, 120 students have migrated to Canada for higher studies. Canada continues to be a popular destination for international students!
".

(** The human template, filled in. *)
Definition human_qry_template (human_input db_context : pystr) : Message :=
  HumanMessage
    (u "Input:
" ++ human_input ++ u "

Context:
" ++ db_context ++ u "

Output:
").

Definition sorry_prefix : pystr :=
  u "Sorry, I encountered an error while processing your question: ".

Definition generate_response (query : pystr) (llm : option ChatOpenAI)
    (db_chain : option SQLDatabaseChain) : Py W pystr :=
  try_except
    (db_context <- retrieve_from_db query db_chain ;;
     let messages :=
       [SystemMessage system_message;
        human_qry_template query db_context] in
     response <- call_llm llm messages ;;
     ret response)
    (fun e => ret (sorry_prefix ++ str_exn e)).

Definition exit_phrases : list pystr :=
  [u "exit"; u "quit"; u "bye"; u "goodbye"].

(** The test on line 113: [question.lower().strip() in [...]]. *)
Definition is_exit (question : pystr) : bool :=
  py_in (str_strip (str_lower question)) exit_phrases.

(** [st.session_state.chat_history.append(e)] *)
Definition chat_append (e : entry) : Py W unit :=
  h <- getattr (u "chat_history") chat_history ;;
  modify (set_chat_history (h ++ [e])).

Definition thank_you : pystr :=
  [128075]%N ++ u " **Thank you for using Student Migration Analytics!**".

Definition analyzing : pystr :=
  [129300]%N ++ u " Analyzing your question and querying the database...".

Definition generated_ok : pystr :=
  [9989]%N ++ u " Response generated successfully!".

Definition error_occurred : pystr :=
  [10060]%N ++ u " **Error Occurred**: ".

Definition process_question (question : pystr) : Py W bool :=
  if is_exit question then
    log (st_success thank_you) ;;
    log (st_info (u "Feel free to ask more questions anytime.")) ;;
    log st_balloons ;;
    ret true
  else
    chat_append (u "You", question) ;;
    log (st_spinner analyzing) ;;
    log (st_progress 0) ;;
    log (st_progress 25) ;;
    try_except
      (l <- getattr (u "llm") llm ;;
       c <- getattr (u "db_chain") db_chain ;;
       response <- generate_response question l c ;;
       log (st_progress 75) ;;
       chat_append (u "Bot", response) ;;
       log (st_progress 100) ;;
       log (time_sleep 500) ;;
       log progress_empty ;;
       log (st_success generated_ok) ;;
       ret true)
      (fun e =>
         log progress_empty ;;
         log (st_error (error_occurred ++ str_exn e)) ;;
         log (st_warning
                (u "Please try rephrasing your question or check the system status.")) ;;
         ret false).

(** ** The script

    One run of the script from top to bottom for one browser interaction.
    [Inputs] holds what the widgets return in that run.  Rendering that
    only displays the session (titles, metrics, chat bubbles, help texts)
    is left out; reports tied to the connection status or to a user action
    are logged. *)

Record Inputs : Type := {
  clear_history_clicked : bool;
  show_db_info_clicked : bool;
  sample_clicked : nat -> bool;
  retry_clicked : bool;
  hide_db_info_clicked : bool;
  user_input : pystr;
  submitted : bool;
  clear_input : bool;
  help_button : bool }.

Definition when (b : bool) (m : Py W unit) : Py W unit :=
  if b then m else ret tt.

Definition is_absent {A} (o : option A) : bool :=
  match o with None => true | Some _ => false end.

(** [st.session_state.get(key, False)] *)
Definition get_flag (f : SessionState -> option bool) : Py W bool :=
  read (fun s => match f s with Some b => b | None => false end).

Definition sample_questions : list pystr :=
  [u "How many students went to Canada?";
   u "Which country has the most students?";
   u "Show me migration trends by year";
   u "What are the top 5 destinations?";
   u "How many students from India?";
   u "What is the average age of migrating students?";
   u "Which field of study is most popular?"].

Definition db_not_connected : pystr :=
  [10060]%N ++ u " Database not connected!".

(** The loop over the sample buttons, from index [i]. *)
Fixpoint sample_buttons (inp : Inputs) (i : nat) (qs : list pystr)
    : Py W unit :=
  match qs with
  | [] => ret tt
  | question :: qs' =>
      when (sample_clicked inp i)
        (connected <- get_flag db_connected ;;
         if connected then
           modify (set_selected_question (Some question)) ;;
           signal RerunException
         else log (st_error db_not_connected)) ;;
      sample_buttons inp (S i) qs'
  end.

Definition sidebar (inp : Inputs) : Py W unit :=
  present <- read db_connected ;;
  when (is_absent present) (modify (set_db_connected false)) ;;
  connected <- getattr (u "db_connected") db_connected ;;
  (if connected then log (st_success ([9989]%N ++ u " Database Connected"))
   else log (st_error ([10060]%N ++ u " Database Disconnected"))) ;;
  when (clear_history_clicked inp)
    (modify (set_chat_history []) ;;
     log (st_success (u "Chat history cleared!")) ;;
     log (time_sleep 1000) ;;
     signal RerunException) ;;
  when (show_db_info_clicked inp) (modify (set_show_db_info true)) ;;
  sample_buttons inp 0 sample_questions.

Definition initializing : pystr :=
  [128260]%N ++ u " Initializing system components...".

(** Lines 244 to 259. *)
Definition initialize_components : Py W unit :=
  present <- read initialized ;;
  when (is_absent present)
    (log (st_spinner initializing) ;;
     log (st_progress 0) ;;
     log (st_progress 25) ;;
     h <- initialize_database ;;
     log (st_progress 75) ;;
     (let '(l, d, c) := h in modify (set_handles l d c)) ;;
     modify (set_initialized true) ;;
     log (st_progress 100) ;;
     log (time_sleep 500) ;;
     log progress_empty).

Definition system_not_ready : pystr :=
  [9888; 65039]%N ++ u " **System Not Ready**".

(** Lines 266 to 281: the gate in front of the chat. *)
Definition connection_gate (inp : Inputs) : Py W unit :=
  connected <- get_flag db_connected ;;
  when (negb connected)
    (log (st_error system_not_ready) ;;
     log (st_warning
            (u "Please check your database connection and OpenAI API key configuration.")) ;;
     when (retry_clicked inp)
       (modify (set_initialized false) ;;
        signal RerunException) ;;
     signal StopException).

(** Lines 370 to 387: what the form's buttons do. *)
Definition handle_form (inp : Inputs) : Py W unit :=
  when (submitted inp && truthy (user_input inp))
    (process_question (user_input inp) ;;
     modify (set_selected_question None) ;;
     signal RerunException) ;;
  when (clear_input inp)
    (log (st_info (u "Input cleared!")) ;;
     modify (set_selected_question None) ;;
     signal RerunException) ;;
  when (help_button inp)
    (log (st_info
            (u "**Help**: Use natural language to ask questions about student migration data!"))).

Definition script (inp : Inputs) : Py W unit :=
  sidebar inp ;;
  initialize_components ;;
  present <- read chat_history ;;
  when (is_absent present) (modify (set_chat_history [])) ;;
  connection_gate inp ;;
  show <- get_flag show_db_info ;;
  when (show && hide_db_info_clicked inp)
    (modify (set_show_db_info false) ;;
     signal RerunException) ;;
  handle_form inp.

(** A browser session: the script runs once per interaction, on the
    session, log and world the previous run left. *)
Fixpoint runs (inps : list Inputs) (st : State W) : State W :=
  match inps with
  | [] => st
  | inp :: rest => runs rest (snd (script inp st))
  end.

(** Calling [process_question] once per question, as the form does. *)
Fixpoint ask_all (qs : list pystr) (st : State W) : list (res bool) * State W :=
  match qs with
  | [] => ([], st)
  | q :: rest =>
      let (r, st') := process_question q st in
      let (rs, st'') := ask_all rest st' in
      (r :: rs, st'')
  end.

End Program.

(** ** Predicates on histories and logs *)

Definition You : pystr := u "You".
Definition Bot : pystr := u "Bot".

(** User and assistant entries in turn, user first, assistant last. *)
Fixpoint alternates (h : list entry) : bool :=
  match h with
  | [] => true
  | (s1, _) :: (s2, _) :: rest =>
      pystr_eqb s1 You && pystr_eqb s2 Bot && alternates rest
  | _ => false
  end.

(** No model endpoint is reached in the log. *)
Definition no_pipeline_call (evs : list Event) : Prop :=
  Forall (fun ev => is_pipeline_call ev = false) evs.

(** The three keys [process_question] reads are in the session. *)
Definition keys_present (s : SessionState) : Prop :=
  chat_history s <> None /\ llm s <> None /\ db_chain s <> None.

(** [s] begins with [p]; [s] has [m] somewhere inside. *)
Definition starts_with (p s : pystr) : Prop := exists t, s = p ++ t.
Definition contains (m s : pystr) : Prop := exists a b, s = a ++ m ++ b.

(** The session when [process_question] reaches its [try]: the question
    is in the history and the progress bar stands at 25. *)
Definition asked {W} (question : pystr) (h : list entry) (st : State W)
    : State W :=
  {| session := set_chat_history (h ++ [(You, question)]) (session st);
     events := events st ++ [st_spinner analyzing; st_progress 0; st_progress 25];
     world := world st |}.

(** The session when [process_question] returns after the answer [a],
    [st2] being the state the Synthesizer left. *)
Definition answered {W} (question a : pystr) (h : list entry) (st2 : State W)
    : State W :=
  {| session :=
       set_chat_history (h ++ [(You, question); (Bot, a)]) (session st2);
     events :=
       events st2 ++ [st_progress 75; st_progress 100; time_sleep 500;
                      progress_empty; st_success generated_ok];
     world := world st2 |}.

(** The messages the Synthesizer sends for a question and a query result. *)
Definition synthesis_messages (question db_context : pystr) : list Message :=
  [SystemMessage system_message; human_qry_template question db_context].

(** What a run of questions adds to the history: nothing for an exit
    phrase, and otherwise the question followed by the answer that
    [generate_response] returned for that very question. *)
Inductive exchanges {W} (E : Env W)
    : State W -> list pystr -> list entry -> State W -> Prop :=
| exchanges_nil st : exchanges E st [] [] st
| exchanges_exit st q qs st1 new st' :
    is_exit E q = true ->
    process_question E q st = (Ret true, st1) ->
    exchanges E st1 qs new st' ->
    exchanges E st (q :: qs) new st'
| exchanges_answer st q qs h l c a st2 new st' :
    is_exit E q = false ->
    chat_history (session st) = Some h ->
    llm (session st) = Some l ->
    db_chain (session st) = Some c ->
    generate_response E q l c (asked q h st) = (Ret a, st2) ->
    process_question E q st = (Ret true, answered q a h st2) ->
    exchanges E (answered q a h st2) qs new st' ->
    exchanges E st (q :: qs) ((You, q) :: (Bot, a) :: new) st'.

(** A history grew by something that ends in an assistant entry. *)
Definition answer_appended (before after : SessionState) : Prop :=
  exists h mid a,
    chat_history before = Some h /\
    chat_history after = Some (h ++ mid ++ [(Bot, a)]).

(** ** Sample environments *)

Definition no_case_tables : pystr -> pystr := fun s => s.

Definition canada_result : pystr :=
  u "  There are 120 students in the database who went to Canada. ".

Definition canada_answer : pystr :=
  u "Based on the data, 120 students have migrated to Canada for higher studies.".

(** Key set, database reachable, model answering. *)
Definition live_env : Env unit :=
  {| unicode_lower := no_case_tables;
     environ := fun k =>
       if pystr_eqb k (u "OPENAI_API_KEY") then Some (u "sk-live") else None;
     ext_ChatOpenAI := fun _ w => (None, w);
     ext_from_uri := fun _ w => (None, w);
     ext_from_llm := fun _ w => (None, w);
     run_chain := fun _ q w =>
       (inr [(u "query", q); (u "result", canada_result)], w);
     run_llm := fun _ _ w => (inr canada_answer, w) |}.

Definition cannot_connect : exn :=
  LibraryError (u "Can't connect to MySQL server on 'localhost'").

Definition rate_limited : exn := LibraryError (u "Rate limit reached").

(** Key set, database unreachable, model refusing. *)
Definition offline_env : Env unit :=
  {| unicode_lower := no_case_tables;
     environ := fun k =>
       if pystr_eqb k (u "OPENAI_API_KEY") then Some (u "sk-live") else None;
     ext_ChatOpenAI := fun _ w => (None, w);
     ext_from_uri := fun _ w => (Some cannot_connect, w);
     ext_from_llm := fun _ w => (None, w);
     run_chain := fun _ _ w => (inl cannot_connect, w);
     run_llm := fun _ _ w => (inl rate_limited, w) |}.

(** No key in the process environment, database reachable. *)
Definition no_key_env : Env unit :=
  {| unicode_lower := no_case_tables;
     environ := fun _ => None;
     ext_ChatOpenAI := fun _ w => (None, w);
     ext_from_uri := fun _ w => (None, w);
     ext_from_llm := fun _ w => (None, w);
     run_chain := fun _ q w =>
       (inr [(u "query", q); (u "result", canada_result)], w);
     run_llm := fun _ _ w => (inr canada_answer, w) |}.

(** The handles a successful initialisation builds with the key [sk-live]. *)
Definition live_llm : ChatOpenAI :=
  {| temperature := 0; openai_api_key := u "sk-live" |}.

Definition live_chain : SQLDatabaseChain :=
  {| chain_llm := live_llm;
     chain_db := {| db_uri := mysql_uri;
                    include_tables := [u "global_student_migration"];
                    sample_rows_in_table_info := 2 |};
     chain_verbose := true |}.

Definition canada_question : pystr := u "How many students went to Canada?".

Definition fresh {W} (w : W) : State W :=
  {| session := empty_session; events := []; world := w |}.

Definition no_inputs : Inputs :=
  {| clear_history_clicked := false; show_db_info_clicked := false;
     sample_clicked := fun _ => false; retry_clicked := false;
     hide_db_info_clicked := false; user_input := [];
     submitted := false; clear_input := false; help_button := false |}.

Definition submit (q : pystr) : Inputs :=
  {| clear_history_clicked := false; show_db_info_clicked := false;
     sample_clicked := fun _ => false; retry_clicked := false;
     hide_db_info_clicked := false; user_input := q;
     submitted := true; clear_input := false; help_button := false |}.

Definition retry : Inputs :=
  {| clear_history_clicked := false; show_db_info_clicked := false;
     sample_clicked := fun _ => false; retry_clicked := true;
     hide_db_info_clicked := false; user_input := [];
     submitted := false; clear_input := false; help_button := false |}.

(** The session after its first run. *)
Definition started {W} (E : Env W) (w : W) : State W :=
  snd (script E no_inputs (fresh w)).

(** Key present but empty, database reachable. *)
Definition empty_key_env : Env unit :=
  {| unicode_lower := no_case_tables;
     environ := fun k =>
       if pystr_eqb k (u "OPENAI_API_KEY") then Some [] else None;
     ext_ChatOpenAI := fun _ w => (None, w);
     ext_from_uri := fun _ w => (None, w);
     ext_from_llm := fun _ w => (None, w);
     run_chain := fun _ q w =>
       (inr [(u "query", q); (u "result", canada_result)], w);
     run_llm := fun _ _ w => (inr canada_answer, w) |}.

(** The handles built when the key is the placeholder of line 24. *)
Definition placeholder_llm : ChatOpenAI :=
  {| temperature := 0; openai_api_key := u "YOUR API KEY" |}.

Definition the_database : SQLDatabase :=
  {| db_uri := mysql_uri;
     include_tables := [u "global_student_migration"];
     sample_rows_in_table_info := 2 |}.

Definition placeholder_chain : SQLDatabaseChain :=
  {| chain_llm := placeholder_llm; chain_db := the_database;
     chain_verbose := true |}.

(** ** Reasoning about runs *)

(** [m], started where [P] holds, ends with a value satisfying [Q], or
    leaves by an exception or a script-control signal in a state
    satisfying [X]. *)
Definition triple {W A} (P : State W -> Prop) (m : Py W A)
    (Q : A -> State W -> Prop) (X : State W -> Prop) : Prop :=
  forall st, P st ->
    match m st with
    | (Ret a, st') => Q a st'
    | (_, st') => X st'
    end.

(** [m], started where [P] holds, raises no exception: it ends with a
    value satisfying [Q], or leaves by a script-control signal. *)
Definition safe {W A} (P : State W -> Prop) (m : Py W A)
    (Q : A -> State W -> Prop) : Prop :=
  forall st, P st ->
    match m st with
    | (Ret a, st') => Q a st'
    | (Raise _, _) => False
    | (Ctl _, _) => True
    end.

Definition anywhere {W} : State W -> Prop := fun _ => True.

(** A property of the session and of the log, as a property of states. *)
Definition on_state {W} (J : SessionState -> list Event -> Prop)
    (st : State W) : Prop :=
  J (session st) (events st).

(** Properties that no step of the script can break, except building the
    handles, setting [db_connected] to [True] and what [process_question]
    does (calling a model, appending to the history). *)
Record Stable (J : SessionState -> list Event -> Prop) : Prop := {
  stable_ui : forall s evs ev,
    is_pipeline_call ev = false -> J s evs -> J s (evs ++ [ev]);
  stable_chat : forall s evs, J s evs -> J (set_chat_history [] s) evs;
  stable_show : forall s evs b, J s evs -> J (set_show_db_info b s) evs;
  stable_selected : forall s evs q,
    J s evs -> J (set_selected_question q s) evs;
  stable_initialized : forall s evs b,
    J s evs -> J (set_initialized b s) evs;
  stable_disconnected : forall s evs,
    J s evs -> J (set_db_connected false s) evs }.

(** A model call made at temperature zero, or no model call. *)
Definition zero_temperature (ev : Event) : Prop :=
  forall t, event_temperature ev = Some t -> t = 0%Z.

(** The handles kept in the session were built with temperature zero. *)
Definition handles_zero (s : SessionState) : Prop :=
  (forall l, llm s = Some (Some l) -> temperature l = 0%Z)
  /\ (forall c, db_chain s = Some (Some c) ->
        temperature (chain_llm c) = 0%Z).

(** A connected session holds both handles. *)
Definition ready (s : SessionState) : Prop :=
  db_connected s = Some true ->
  exists l c, llm s = Some (Some l) /\ db_chain s = Some (Some c).

(** The history, when there is one, alternates. *)
Definition history_alternates (s : SessionState) : Prop :=
  forall h, chat_history s = Some h -> alternates h = true.

(** What every run of the script maintains. *)
Definition session_inv (s : SessionState) (evs : list Event) : Prop :=
  (initialized s = None -> db_connected s <> Some true)
  /\ ready s /\ handles_zero s /\ history_alternates s
  /\ Forall zero_temperature evs.

(** A session past initialisation and not connected, whose log has grown
    from [evs0] without a model call. *)
Definition not_ready_inv (evs0 : list Event) (s : SessionState)
    (evs : list Event) : Prop :=
  initialized s <> None /\ db_connected s <> Some true
  /\ exists new, evs = evs0 ++ new /\ no_pipeline_call new.

(** ** The sidebar metric and the chat display *)

(** [range(start, stop, step)] for a positive step; [fuel] bounds the
    number of elements, and [stop] is enough of it. *)
Fixpoint range_fuel (fuel start stop step : nat) : list nat :=
  match fuel with
  | O => []
  | S fuel' =>
      if Nat.ltb start stop
      then start :: range_fuel fuel' (start + step) stop step
      else []
  end.

Definition py_range (start stop step : nat) : list nat :=
  range_fuel stop start stop step.

Definition you_label : pystr := u "**" ++ [129489]%N ++ u " You**: ".

Definition assistant_label : pystr := u "**" ++ [129302]%N ++ u " Assistant**: ".

(** The body of the display loop at index [i]: [None] stands for the
    [IndexError] of a subscript out of range. *)
Definition chat_bubble (h : list entry) (i : nat) : option (list Event) :=
  if Nat.ltb (i + 1) (List.length h) then
    match nth_error h i, nth_error h (i + 1) with
    | Some user_entry, Some bot_entry =>
        Some [st_info (you_label ++ snd user_entry);
              st_success (assistant_label ++ snd bot_entry)]
    | _, _ => None
    end
  else Some [].

Fixpoint for_each (body : nat -> option (list Event)) (indices : list nat)
    : option (list Event) :=
  match indices with
  | [] => Some []
  | i :: rest =>
      match body i with
      | None => None
      | Some evs =>
          match for_each body rest with
          | None => None
          | Some evs' => Some (evs ++ evs')
          end
      end
  end.

(** Lines 315 to 336: what the chat display shows for a history. *)
Definition chat_display (h : list entry) : option (list Event) :=
  match h with
  | [] => Some []
  | _ :: _ => for_each (chat_bubble h) (py_range 0 (List.length h) 2)
  end.

(** Lines 171 and 401: [len(st.session_state.get("chat_history", [])) // 2]. *)
Definition chat_count (s : SessionState) : nat :=
  Nat.div (List.length (match chat_history s with Some h => h | None => [] end)) 2.

(** The entries of a history taken two by two, by position. *)
Fixpoint bubbles (h : list entry) : list Event :=
  match h with
  | user_entry :: bot_entry :: rest =>
      st_info (you_label ++ snd user_entry)
        :: st_success (assistant_label ++ snd bot_entry) :: bubbles rest
  | _ => []
  end.

Definition is_user_entry (e : entry) : bool := pystr_eqb (fst e) You.

(** ** More vocabulary for the properties *)



(** An ASCII string made of white space only. *)
Definition blank (s : pystr) : bool :=
  forallb (fun c => is_ascii c && is_space c) s.

(** A chain whose answer has no [result] key. *)
Definition keyless_env : Env unit :=
  {| unicode_lower := no_case_tables;
     environ := fun k =>
       if pystr_eqb k (u "OPENAI_API_KEY") then Some (u "sk-live") else None;
     ext_ChatOpenAI := fun _ w => (None, w);
     ext_from_uri := fun _ w => (None, w);
     ext_from_llm := fun _ w => (None, w);
     run_chain := fun _ q w => (inr [(u "query", q)], w);
     run_llm := fun _ _ w => (inr canada_answer, w) |}.

Definition clear_history : Inputs :=
  {| clear_history_clicked := true; show_db_info_clicked := false;
     sample_clicked := fun _ => false; retry_clicked := false;
     hide_db_info_clicked := false; user_input := canada_question;
     submitted := true; clear_input := false; help_button := false |}.

Definition click_sample (k : nat) : Inputs :=
  {| clear_history_clicked := false; show_db_info_clicked := false;
     sample_clicked := Nat.eqb k; retry_clicked := false;
     hide_db_info_clicked := false; user_input := [];
     submitted := false; clear_input := false; help_button := false |}.

(** The handles and the initialisation mark of a session are those of
    [s0]. *)
Definition handles_fixed (s0 s : SessionState) (evs : list Event) : Prop :=
  initialized s <> None /\ llm s = llm s0 /\ db s = db s0
  /\ db_chain s = db_chain s0.

(** The log has grown from [evs0] without a model call, and the history
    is the one of [s0] or was emptied. *)
Definition quiet_inv (evs0 : list Event) (s0 s : SessionState)
    (evs : list Event) : Prop :=
  (exists new, evs = evs0 ++ new /\ no_pipeline_call new)
  /\ (chat_history s = chat_history s0 \/ chat_history s = Some []).

(** * Properties *)

Unset Implicit Arguments.

(** ** Strings *)

Lemma pystr_eqb_eq (a b : pystr) : pystr_eqb a b = true <-> a = b.
Proof.
  revert b; induction a as [|x a IH]; intros [|y b]; simpl;
    try (split; [discriminate | discriminate]); try tauto.
  rewrite andb_true_iff, N.eqb_eq, IH.
  split.
  - intros [-> ->]; reflexivity.
  - intros H; injection H; auto.
Qed.

Lemma py_in_In (x : pystr) (l : list pystr) : py_in x l = true <-> In x l.
Proof.
  unfold py_in. rewrite existsb_exists. split.
  - intros (y & Hy & Heq). apply pystr_eqb_eq in Heq. subst y. exact Hy.
  - intros H. exists x. split; [exact H | apply pystr_eqb_eq; reflexivity].
Qed.

Lemma is_exit_In {W} (E : Env W) (q : pystr) :
  is_exit E q = true <-> In (str_strip (str_lower E q)) exit_phrases.
Proof. apply py_in_In. Qed.

Lemma is_exit_not_In {W} (E : Env W) (q : pystr) :
  is_exit E q = false <-> ~ In (str_strip (str_lower E q)) exit_phrases.
Proof.
  rewrite <- is_exit_In. destruct (is_exit E q); split; intro H;
    try reflexivity; try discriminate; try (intro; discriminate).
  exfalso; apply H; reflexivity.
Qed.

Lemma starts_with_app (p t : pystr) : starts_with p (p ++ t).
Proof. exists t; reflexivity. Qed.

Lemma contains_suffix (p m : pystr) : contains m (p ++ m).
Proof. exists p, []. rewrite app_nil_r. reflexivity. Qed.

(** Running a monadic term: unfold the combinators, then the record
    projections applied to built states. *)
Ltac run :=
  cbv beta iota zeta delta
    [bind ret raise signal try_except log modify read when getattr getitem
     get_flag construct call_db_chain call_llm chat_append];
  cbn [session events world fst snd].

(** ** The Query Translator and the Answer Synthesizer never raise *)

Section Pipeline.
Context {W : Type} (E : Env W).

Lemma retrieve_from_db_returns (query : pystr) (c : option SQLDatabaseChain)
    (st : State W) :
  exists s st',
    retrieve_from_db E query c st = (Ret s, st') /\ session st' = session st.
Proof.
  destruct c as [c|].
  - unfold retrieve_from_db. run.
    destruct (run_chain E c query (world st)) as [[e|d] w].
    + eexists _, _; split; reflexivity.
    + destruct (dict_get d (u "result")); eexists _, _; split; reflexivity.
  - eexists _, _; split; reflexivity.
Qed.

Lemma call_llm_outcome (l : option ChatOpenAI) (msgs : list Message)
    (st : State W) :
  exists st', session st' = session st /\
    ((exists a, call_llm E l msgs st = (Ret a, st')) \/
     (exists e, call_llm E l msgs st = (Raise e, st'))).
Proof.
  destruct l as [l|].
  - run.
    destruct (run_llm E l msgs (world st)) as [[e|a] w];
      eexists; (split; [|eauto]); reflexivity.
  - eexists; split; [|right; eexists]; reflexivity.
Qed.

Lemma generate_response_unfold (query : pystr) (l : option ChatOpenAI)
    (c : option SQLDatabaseChain) (st : State W) (ctx : pystr)
    (st1 : State W) :
  retrieve_from_db E query c st = (Ret ctx, st1) ->
  generate_response E query l c st =
    match call_llm E l (synthesis_messages query ctx) st1 with
    | (Ret a, st2) => (Ret a, st2)
    | (Raise e, st2) => (Ret (sorry_prefix ++ str_exn e), st2)
    | (Ctl k, st2) => (Ctl k, st2)
    end.
Proof.
  intros H. unfold generate_response, try_except, bind. rewrite H.
  fold (synthesis_messages query ctx).
  destruct (call_llm E l (synthesis_messages query ctx) st1) as [[a|e|k] st2];
    reflexivity.
Qed.

Lemma generate_response_returns (query : pystr) (l : option ChatOpenAI)
    (c : option SQLDatabaseChain) (st : State W) :
  exists a st',
    generate_response E query l c st = (Ret a, st') /\
    session st' = session st.
Proof.
  destruct (retrieve_from_db_returns query c st) as (ctx & st1 & H1 & S1).
  rewrite (@generate_response_unfold query l c st ctx st1 H1).
  destruct (call_llm_outcome l (synthesis_messages query ctx) st1)
    as (st2 & S2 & [[a H2]|[e H2]]); rewrite H2;
    eexists _, _; (split; [reflexivity | congruence]).
Qed.

End Pipeline.

(** ** One question through the orchestrator *)

Section Orchestrator.
Context {W : Type} (E : Env W).

Lemma asked_eq (q : pystr) (h : list entry) (st : State W) :
  {| session := set_chat_history (h ++ [(u "You", q)]) (session st);
     events := ((events st ++ [st_spinner analyzing]) ++ [st_progress 0])
                 ++ [st_progress 25];
     world := world st |} = asked q h st.
Proof. unfold asked. rewrite <- !app_assoc. reflexivity. Qed.

Lemma process_question_exit (q : pystr) (st : State W) :
  is_exit E q = true ->
  process_question E q st =
    (Ret true,
     {| session := session st;
        events := events st ++
          [st_success thank_you;
           st_info (u "Feel free to ask more questions anytime.");
           st_balloons];
        world := world st |}).
Proof.
  intros Hq. unfold process_question. rewrite Hq. run.
  rewrite <- !app_assoc. reflexivity.
Qed.

Lemma process_question_answer (q : pystr) (st : State W) (h : list entry)
    (l : option ChatOpenAI) (c : option SQLDatabaseChain) (a : pystr)
    (st2 : State W) :
  is_exit E q = false ->
  chat_history (session st) = Some h ->
  llm (session st) = Some l ->
  db_chain (session st) = Some c ->
  generate_response E q l c (asked q h st) = (Ret a, st2) ->
  process_question E q st = (Ret true, answered q a h st2).
Proof.
  intros Hq Hh Hl Hc Hg.
  destruct (generate_response_returns E q l c (asked q h st))
    as (a' & st2' & Hg' & Hs).
  rewrite Hg in Hg'. injection Hg' as <- <-.
  unfold process_question. rewrite Hq. run. rewrite Hh.
  cbn [session events world llm db_chain set_chat_history].
  rewrite Hl, asked_eq.
  change (db_chain (session (asked q h st))) with (db_chain (session st)).
  rewrite Hc, Hg. cbn [session events world].
  rewrite Hs. cbn [session asked chat_history set_chat_history].
  unfold answered. rewrite Hs.
  cbn [app session events world asked]. rewrite <- !app_assoc.
  reflexivity.
Qed.

(** A question that is not an exit phrase goes through the Synthesizer,
    whose answer is what lands in the history. *)
Lemma process_question_non_exit (q : pystr) (st : State W) (h : list entry)
    (l : option ChatOpenAI) (c : option SQLDatabaseChain) :
  is_exit E q = false ->
  chat_history (session st) = Some h ->
  llm (session st) = Some l ->
  db_chain (session st) = Some c ->
  exists a st2,
    generate_response E q l c (asked q h st) = (Ret a, st2) /\
    session st2 = session (asked q h st) /\
    process_question E q st = (Ret true, answered q a h st2).
Proof.
  intros Hq Hh Hl Hc.
  destruct (generate_response_returns E q l c (asked q h st))
    as (a & st2 & Hg & Hs).
  exists a, st2. split; [exact Hg | split; [exact Hs |]].
  apply process_question_answer with (l := l) (c := c); assumption.
Qed.

Lemma keys_present_inv (s : SessionState) :
  keys_present s ->
  exists h l c, chat_history s = Some h /\ llm s = Some l /\ db_chain s = Some c.
Proof.
  intros (Hh & Hl & Hc).
  destruct (chat_history s) as [h|]; [|congruence].
  destruct (llm s) as [l|]; [|congruence].
  destruct (db_chain s) as [c|]; [|congruence].
  exists h, l, c. repeat split.
Qed.

Lemma answered_session (q a : pystr) (h : list entry) (st st2 : State W) :
  session st2 = session (asked q h st) ->
  chat_history (session (answered q a h st2)) = Some (h ++ [(You, q); (Bot, a)])
  /\ llm (session (answered q a h st2)) = llm (session st)
  /\ db_chain (session (answered q a h st2)) = db_chain (session st).
Proof.
  intros Hs. unfold answered. cbn [session]. rewrite Hs.
  repeat split.
Qed.

End Orchestrator.

(** ** Alternation *)

Lemma alternates_app_aux (n : nat) :
  forall h k : list entry,
    List.length h <= n -> alternates h = true ->
    alternates (h ++ k) = alternates k.
Proof.
  induction n as [|n IH]; intros h k Hlen Hh.
  - destruct h; [reflexivity | simpl in Hlen; lia].
  - destruct h as [|[s1 t1] [|[s2 t2] rest]]; try reflexivity;
      try discriminate.
    simpl in Hh. apply andb_true_iff in Hh as [Hs Hrest].
    simpl. rewrite Hs. simpl.
    apply IH; [simpl in Hlen; lia | exact Hrest].
Qed.

Lemma alternates_app (h k : list entry) :
  alternates h = true -> alternates (h ++ k) = alternates k.
Proof. apply alternates_app_aux with (n := List.length h). lia. Qed.

(** A non-empty alternating history opens with a user entry and closes
    with an assistant entry. *)
Lemma alternates_ends_aux (n : nat) :
  forall h : list entry,
    List.length h <= n -> alternates h = true -> h <> [] ->
    (exists q t, h = (You, q) :: t) /\ (exists t a, h = t ++ [(Bot, a)]).
Proof.
  induction n as [|n IH]; intros h Hlen Hh Hne.
  - destruct h; [congruence | simpl in Hlen; lia].
  - destruct h as [|[s1 t1] [|[s2 t2] rest]]; try congruence;
      try discriminate.
    simpl in Hh. apply andb_true_iff in Hh as [Hs Hrest].
    apply andb_true_iff in Hs as [H1 H2].
    apply pystr_eqb_eq in H1, H2. subst s1 s2.
    split; [eauto |].
    destruct rest as [|e rest'].
    + exists [(You, t1)], t2. reflexivity.
    + destruct (IH (e :: rest')) as (_ & t & a & Ht);
        [simpl in Hlen |- *; lia | exact Hrest | discriminate |].
      exists ((You, t1) :: (Bot, t2) :: t), a. rewrite Ht. reflexivity.
Qed.

Lemma alternates_ends (h : list entry) :
  alternates h = true -> h <> [] ->
  (exists q t, h = (You, q) :: t) /\ (exists t a, h = t ++ [(Bot, a)]).
Proof. apply alternates_ends_aux with (n := List.length h). lia. Qed.

(** ** The orchestrator's contract *)

(** C3. A question whose lower-cased, stripped text is one of [exit],
    [quit], [bye], [goodbye] makes [process_question] return [True] after
    showing the closing acknowledgment; it reaches neither the Query
    Translator nor the Answer Synthesizer, and the session (the chat
    history with it) and the outside world are left as they were. *)
Theorem exit_phrase_short_circuits {W} (E : Env W) (question : pystr)
    (st : State W) :
  In (str_strip (str_lower E question)) exit_phrases ->
  exists new,
    process_question E question st =
      (Ret true,
       {| session := session st; events := events st ++ new;
          world := world st |})
    /\ new = [st_success thank_you;
              st_info (u "Feel free to ask more questions anytime.");
              st_balloons]
    /\ no_pipeline_call new.
Proof.
  intros Hin. apply is_exit_In in Hin.
  eexists. split; [apply (process_question_exit E question st Hin) |].
  split; [reflexivity |].
  repeat constructor.
Qed.

Lemma exit_phrase_short_circuits_witness :
  In (str_strip (str_lower live_env (u "  Bye "))) exit_phrases /\
  exists new,
    process_question live_env (u "  Bye ") (started live_env tt) =
      (Ret true,
       {| session := session (started live_env tt);
          events := events (started live_env tt) ++ new;
          world := world (started live_env tt) |})
    /\ new = [st_success thank_you;
              st_info (u "Feel free to ask more questions anytime.");
              st_balloons]
    /\ no_pipeline_call new.
Proof.
  assert (H : In (str_strip (str_lower live_env (u "  Bye "))) exit_phrases)
    by (vm_compute; tauto).
  split; [exact H |].
  exact (exit_phrase_short_circuits live_env (u "  Bye ")
           (started live_env tt) H).
Defined.

(** C4. When the chain call of the Query Translator fails, whatever the
    cause, [retrieve_from_db] returns the string [Error retrieving data: ]
    followed by the message of the failure; so it does when there is no
    chain to call because initialisation failed; and on no input at all
    does [retrieve_from_db] raise: it always returns a string. *)
Theorem translator_failure_becomes_text {W} (E : Env W) (query : pystr)
    (c : SQLDatabaseChain) (st : State W) (e : exn) (w : W) :
  run_chain E c query (world st) = (inl e, w) ->
  retrieve_from_db E query (Some c) st =
    (Ret (error_retrieving ++ str_exn e),
     {| session := session st; events := events st ++ [chain_call c query];
        world := w |})
  /\ starts_with error_retrieving (error_retrieving ++ str_exn e)
  /\ contains (str_exn e) (error_retrieving ++ str_exn e)
  /\ retrieve_from_db E query None st =
       (Ret (error_retrieving ++ str_exn not_callable), st)
  /\ (forall q' c' st', exists s st'',
        retrieve_from_db E q' c' st' = (Ret s, st'')).
Proof.
  intros Hrun. split; [| split; [| split; [| split]]].
  - unfold retrieve_from_db. run. rewrite Hrun. reflexivity.
  - apply starts_with_app.
  - apply contains_suffix.
  - reflexivity.
  - intros q' c' st'.
    destruct (retrieve_from_db_returns E q' c' st') as (s & st'' & H & _).
    eauto.
Qed.

Lemma translator_failure_becomes_text_witness :
  run_chain offline_env live_chain canada_question
    (world (fresh tt)) = (inl cannot_connect, tt)
  /\ retrieve_from_db offline_env canada_question
       (Some live_chain) (fresh tt) =
       (Ret (error_retrieving ++ str_exn cannot_connect),
        {| session := session (fresh tt);
           events := events (fresh tt) ++
             [chain_call live_chain canada_question];
           world := tt |}).
Proof.
  split; [reflexivity |].
  exact (proj1 (translator_failure_becomes_text offline_env
                  canada_question live_chain (fresh tt) cannot_connect tt
                  eq_refl)).
Defined.

(** C5. When the model call of the Answer Synthesizer fails (the model
    raises, or there is no model handle to call), [generate_response]
    does not raise: it returns the fixed apology
    [Sorry, I encountered an error while processing your question: ]
    followed by the message of the failure. *)
Theorem synthesizer_failure_becomes_apology {W} (E : Env W) (query : pystr)
    (l : option ChatOpenAI) (c : option SQLDatabaseChain) (st : State W)
    (db_context : pystr) (st1 : State W) (e : exn) (st2 : State W) :
  retrieve_from_db E query c st = (Ret db_context, st1) ->
  call_llm E l (synthesis_messages query db_context) st1 = (Raise e, st2) ->
  generate_response E query l c st = (Ret (sorry_prefix ++ str_exn e), st2)
  /\ starts_with sorry_prefix (sorry_prefix ++ str_exn e)
  /\ contains (str_exn e) (sorry_prefix ++ str_exn e).
Proof.
  intros Hctx Hllm. split; [| split].
  - rewrite (@generate_response_unfold W E query l c st db_context st1 Hctx).
    rewrite Hllm. reflexivity.
  - apply starts_with_app.
  - apply contains_suffix.
Qed.

Lemma synthesizer_failure_becomes_apology_witness :
  generate_response offline_env canada_question (Some live_llm)
    (Some live_chain) (fresh tt) =
    (Ret (sorry_prefix ++ str_exn rate_limited),
     {| session := empty_session;
        events :=
          [chain_call live_chain canada_question;
           llm_call live_llm
             (synthesis_messages canada_question
                (error_retrieving ++ str_exn cannot_connect))];
        world := tt |}).
Proof.
  refine (proj1 (synthesizer_failure_becomes_apology offline_env
                   canada_question (Some live_llm) (Some live_chain)
                   (fresh tt)
                   (error_retrieving ++ str_exn cannot_connect)
                   {| session := empty_session;
                      events := [chain_call live_chain canada_question];
                      world := tt |}
                   rate_limited _ _ _)); reflexivity.
Defined.

(** C9. On a session that holds the three keys the function reads, a
    question that is not an exit phrase makes [process_question] return
    [True], for any behaviour of the database and of the model: the
    [except] branch, which returns [False] and would leave the user entry
    without an answer, is never taken, and the history ends with the
    question followed by an assistant entry. *)
Theorem process_question_returns_true {W} (E : Env W) (question : pystr)
    (st : State W) :
  keys_present (session st) ->
  ~ In (str_strip (str_lower E question)) exit_phrases ->
  exists st' h a,
    process_question E question st = (Ret true, st')
    /\ chat_history (session st) = Some h
    /\ chat_history (session st') = Some (h ++ [(You, question); (Bot, a)]).
Proof.
  intros Hkeys Hq. apply is_exit_not_In in Hq.
  destruct (keys_present_inv _ Hkeys) as (h & l & c & Hh & Hl & Hc).
  destruct (process_question_non_exit E question st h l c Hq Hh Hl Hc)
    as (a & st2 & _ & Hs & Hp).
  exists (answered question a h st2), h, a.
  split; [exact Hp | split; [exact Hh |]].
  apply (answered_session question a h st st2 Hs).
Qed.

(** A session whose initialisation failed: the keys are there, the
    handles are [None]. *)
Lemma started_offline_keys : keys_present (session (started offline_env tt)).
Proof. vm_compute. repeat split; discriminate. Qed.

Lemma started_live_keys : keys_present (session (started live_env tt)).
Proof. vm_compute. repeat split; discriminate. Qed.

Lemma process_question_returns_true_witness :
  exists st' h a,
    process_question offline_env canada_question (started offline_env tt) =
      (Ret true, st')
    /\ chat_history (session (started offline_env tt)) = Some h
    /\ chat_history (session st') =
         Some (h ++ [(You, canada_question); (Bot, a)]).
Proof.
  apply (process_question_returns_true offline_env canada_question
           (started offline_env tt) started_offline_keys).
  vm_compute. intuition discriminate.
Defined.

Section PipelineLog.
Context {W : Type} (E : Env W).

Lemma retrieve_from_db_log (query : pystr) (c : SQLDatabaseChain)
    (st : State W) (s : pystr) (st1 : State W) :
  retrieve_from_db E query (Some c) st = (Ret s, st1) ->
  events st1 = events st ++ [chain_call c query].
Proof.
  unfold retrieve_from_db. run.
  destruct (run_chain E c query (world st)) as [[e|d] w].
  - intros H; injection H as _ <-. reflexivity.
  - destruct (dict_get d (u "result")); intros H; injection H as _ <-;
      reflexivity.
Qed.

Lemma call_llm_log (l : ChatOpenAI) (msgs : list Message) (st : State W)
    (r : res pystr) (st1 : State W) :
  call_llm E (Some l) msgs st = (r, st1) ->
  events st1 = events st ++ [llm_call l msgs].
Proof.
  run. destruct (run_llm E l msgs (world st)) as [[e|a] w];
    intros H; injection H as _ <-; reflexivity.
Qed.

End PipelineLog.

(** The whole of a run on a question that is not an exit phrase. *)
Lemma process_question_pipeline {W} (E : Env W) (question : pystr)
    (st : State W) (h : list entry) (l : option ChatOpenAI)
    (c : option SQLDatabaseChain) :
  is_exit E question = false ->
  chat_history (session st) = Some h ->
  llm (session st) = Some l ->
  db_chain (session st) = Some c ->
  exists db_context st1 a st2,
    retrieve_from_db E question c (asked question h st) = (Ret db_context, st1)
    /\ (call_llm E l (synthesis_messages question db_context) st1 = (Ret a, st2)
        \/ exists e,
             call_llm E l (synthesis_messages question db_context) st1
               = (Raise e, st2)
             /\ a = sorry_prefix ++ str_exn e)
    /\ process_question E question st = (Ret true, answered question a h st2)
    /\ chat_history (session (answered question a h st2))
         = Some (h ++ [(You, question); (Bot, a)])
    /\ (forall l' c', l = Some l' -> c = Some c' ->
          events (answered question a h st2) =
            events st ++
              [st_spinner analyzing; st_progress 0; st_progress 25;
               chain_call c' question;
               llm_call l' (synthesis_messages question db_context);
               st_progress 75; st_progress 100; time_sleep 500;
               progress_empty; st_success generated_ok]).
Proof.
  intros Hq Hh Hl Hc.
  destruct (retrieve_from_db_returns E question c (asked question h st))
    as (ctx & st1 & Hr & Hs1).
  destruct (call_llm_outcome E l (synthesis_messages question ctx) st1)
    as (st2 & Hs2 & Hllm).
  assert (Hg : exists a,
             generate_response E question l c (asked question h st)
               = (Ret a, st2)
             /\ (call_llm E l (synthesis_messages question ctx) st1
                   = (Ret a, st2)
                 \/ exists e,
                      call_llm E l (synthesis_messages question ctx) st1
                        = (Raise e, st2)
                      /\ a = sorry_prefix ++ str_exn e)).
  { rewrite (generate_response_unfold E question l c _ ctx st1 Hr).
    destruct Hllm as [[a Ha]|[e He]].
    - exists a. rewrite Ha. split; [reflexivity | left; reflexivity].
    - exists (sorry_prefix ++ str_exn e). rewrite He.
      split; [reflexivity | right; exists e; split; reflexivity]. }
  destruct Hg as (a & Hg & Hcase).
  exists ctx, st1, a, st2.
  split; [exact Hr | split; [exact Hcase |]].
  split; [apply process_question_answer with (l := l) (c := c); assumption |].
  split.
  - apply (answered_session question a h st st2). congruence.
  - intros l' c' -> ->.
    assert (Hev1 := retrieve_from_db_log E question c' _ ctx st1 Hr).
    assert (Hev2 : events st2 =
                   events st1 ++ [llm_call l' (synthesis_messages question ctx)]).
    { destruct Hcase as [Ha|[e [He _]]];
        eapply call_llm_log; eassumption. }
    unfold answered. cbn [events]. rewrite Hev2, Hev1.
    unfold asked. cbn [events]. rewrite <- !app_assoc. reflexivity.
Qed.

(** C10. The exit test is equality of the whole lower-cased, stripped
    text with one of the four phrases.  For any other question, and a
    session holding the keys, [process_question] runs the Query Translator
    on the question, then the Answer Synthesizer's model call on the
    question and the Translator's result, appends the user entry and the
    assistant entry, and returns [True].  With both handles alive the log
    shows exactly one chain call followed by exactly one chat call. *)
Theorem non_exit_runs_pipeline {W} (E : Env W) (question : pystr)
    (st : State W) (h : list entry) (l : option ChatOpenAI)
    (c : option SQLDatabaseChain) :
  ~ In (str_strip (str_lower E question)) exit_phrases ->
  chat_history (session st) = Some h ->
  llm (session st) = Some l ->
  db_chain (session st) = Some c ->
  exists db_context st1 a st2,
    retrieve_from_db E question c (asked question h st) = (Ret db_context, st1)
    /\ (call_llm E l (synthesis_messages question db_context) st1 = (Ret a, st2)
        \/ exists e,
             call_llm E l (synthesis_messages question db_context) st1
               = (Raise e, st2)
             /\ a = sorry_prefix ++ str_exn e)
    /\ process_question E question st = (Ret true, answered question a h st2)
    /\ chat_history (session (answered question a h st2))
         = Some (h ++ [(You, question); (Bot, a)])
    /\ (forall l' c', l = Some l' -> c = Some c' ->
          events (answered question a h st2) =
            events st ++
              [st_spinner analyzing; st_progress 0; st_progress 25;
               chain_call c' question;
               llm_call l' (synthesis_messages question db_context);
               st_progress 75; st_progress 100; time_sleep 500;
               progress_empty; st_success generated_ok]).
Proof.
  intros Hq Hh Hl Hc. apply is_exit_not_In in Hq.
  exact (process_question_pipeline E question st h l c Hq Hh Hl Hc).
Qed.

Lemma non_exit_runs_pipeline_witness :
  ~ In (str_strip (str_lower live_env (u "exit now"))) exit_phrases
  /\ ~ In (str_strip (str_lower live_env (u "please quit"))) exit_phrases
  /\ exists db_context st1 a st2,
       retrieve_from_db live_env (u "exit now") (Some live_chain)
         (asked (u "exit now") [] (started live_env tt))
         = (Ret db_context, st1)
       /\ process_question live_env (u "exit now") (started live_env tt)
            = (Ret true, answered (u "exit now") a [] st2)
       /\ chat_history (session (answered (u "exit now") a [] st2))
            = Some [(You, u "exit now"); (Bot, a)].
Proof.
  assert (H1 : ~ In (str_strip (str_lower live_env (u "exit now")))
                 exit_phrases)
    by (vm_compute; intuition discriminate).
  split; [exact H1 |].
  split; [vm_compute; intuition discriminate |].
  destruct (non_exit_runs_pipeline live_env (u "exit now")
              (started live_env tt) [] (Some live_llm) (Some live_chain)
              H1 eq_refl eq_refl eq_refl)
    as (ctx & st1 & a & st2 & Hr & _ & Hp & Hh & _).
  exists ctx, st1, a, st2. auto.
Defined.

(** C1, as the code has it.  On a session that holds the keys the
    function reads, [process_question] returns normally for every
    question, the empty one included.  When the question is not an exit
    phrase the history gains the user entry followed by a well-formed
    assistant entry; when it is an exit phrase the history is left
    unchanged. *)
Theorem process_question_returns_normally {W} (E : Env W) (question : pystr)
    (st : State W) :
  keys_present (session st) ->
  exists r st' h,
    process_question E question st = (Ret r, st')
    /\ chat_history (session st) = Some h
    /\ (~ In (str_strip (str_lower E question)) exit_phrases ->
        exists a,
          chat_history (session st')
            = Some (h ++ [(You, question); (Bot, a)]))
    /\ (In (str_strip (str_lower E question)) exit_phrases ->
        chat_history (session st') = Some h).
Proof.
  intros Hkeys.
  destruct (keys_present_inv _ Hkeys) as (h & l & c & Hh & Hl & Hc).
  destruct (is_exit E question) eqn:Hq.
  - eexists true, _, h.
    split; [apply (process_question_exit E question st Hq) |].
    split; [exact Hh |]. split.
    + intros Hn. apply is_exit_not_In in Hn. congruence.
    + intros _. exact Hh.
  - destruct (process_question_non_exit E question st h l c Hq Hh Hl Hc)
      as (a & st2 & _ & Hs & Hp).
    exists true, (answered question a h st2), h.
    split; [exact Hp |]. split; [exact Hh |]. split.
    + intros _. exists a. apply (answered_session question a h st st2 Hs).
    + intros Hin. apply is_exit_In in Hin. congruence.
Qed.

Lemma process_question_returns_normally_witness :
  exists r st' h,
    process_question live_env [] (started live_env tt) = (Ret r, st')
    /\ chat_history (session (started live_env tt)) = Some h
    /\ (~ In (str_strip (str_lower live_env [])) exit_phrases ->
        exists a,
          chat_history (session st') = Some (h ++ [(You, []); (Bot, a)]))
    /\ (In (str_strip (str_lower live_env [])) exit_phrases ->
        chat_history (session st') = Some h).
Proof.
  exact (process_question_returns_normally live_env []
           (started live_env tt) started_live_keys).
Defined.

(** C1 as stated fails on an exit phrase: [process_question] returns on
    [bye] without adding an assistant entry to the history. *)
Lemma bye_appends_no_answer :
  ~ (forall question : pystr,
       exists r st',
         process_question live_env question (started live_env tt)
           = (Ret r, st')
         /\ answer_appended (session (started live_env tt)) (session st')).
Proof.
  intros H. destruct (H (u "bye")) as (r & st' & Hp & h & mid & a & H1 & H2).
  vm_compute in Hp. injection Hp as _ <-.
  vm_compute in H1. injection H1 as <-.
  cbn [session chat_history] in H2. injection H2 as H2.
  cbn [app] in H2. symmetry in H2. apply app_eq_nil in H2 as [_ H2].
  discriminate.
Qed.

(** C2. Starting from a session that holds the keys and whose history
    alternates, any sequence of questions put through [process_question]
    returns [True] every time and leaves an alternating history: it
    gained, for each question that is not an exit phrase and in order,
    the user entry followed by the assistant entry that
    [generate_response] returned for that question.  When not empty, the
    history opens with a user entry and closes with an assistant entry. *)
Theorem chat_history_alternates {W} (E : Env W) (qs : list pystr) :
  forall (st : State W) (h : list entry),
    keys_present (session st) ->
    chat_history (session st) = Some h ->
    alternates h = true ->
    exists new st',
      ask_all E qs st = (map (fun _ => Ret true) qs, st')
      /\ exchanges E st qs new st'
      /\ chat_history (session st') = Some (h ++ new)
      /\ alternates (h ++ new) = true
      /\ (h ++ new <> [] ->
          (exists q t, h ++ new = (You, q) :: t)
          /\ (exists t a, h ++ new = t ++ [(Bot, a)])).
Proof.
  induction qs as [|q qs IH]; intros st h Hkeys Hh Halt.
  - exists [], st. rewrite app_nil_r.
    split; [reflexivity |]. split; [constructor |].
    split; [exact Hh |]. split; [exact Halt |].
    apply alternates_ends; exact Halt.
  - destruct (keys_present_inv _ Hkeys) as (h0 & l & c & Hh0 & Hl & Hc).
    assert (h0 = h) by congruence. subst h0. clear Hh0.
    destruct (is_exit E q) eqn:Hq.
    + pose proof (process_question_exit E q st Hq) as Hp.
      match type of Hp with
      | _ = (_, ?st1) =>
          destruct (IH st1 h Hkeys Hh Halt)
            as (new & st' & Hask & Hex & Hh' & Ha & He)
      end.
      exists new, st'. cbn [ask_all map]. rewrite Hp, Hask.
      split; [reflexivity |].
      split; [eapply exchanges_exit; eassumption |].
      auto.
    + destruct (process_question_non_exit E q st h l c Hq Hh Hl Hc)
        as (a & st2 & Hg & Hs & Hp).
      destruct (answered_session q a h st st2 Hs) as (Hh2 & Hl2 & Hc2).
      assert (Hkeys2 : keys_present (session (answered q a h st2))).
      { unfold keys_present. rewrite Hh2, Hl2, Hc2, Hl, Hc.
        repeat split; discriminate. }
      assert (Halt2 : alternates (h ++ [(You, q); (Bot, a)]) = true).
      { rewrite alternates_app by exact Halt. reflexivity. }
      destruct (IH _ _ Hkeys2 Hh2 Halt2)
        as (new & st' & Hask & Hex & Hh' & Ha & He).
      exists ((You, q) :: (Bot, a) :: new), st'.
      cbn [ask_all map]. rewrite Hp, Hask.
      replace (h ++ (You, q) :: (Bot, a) :: new)
        with ((h ++ [(You, q); (Bot, a)]) ++ new)
        by (rewrite <- app_assoc; reflexivity).
      split; [reflexivity |].
      split; [eapply exchanges_answer; eassumption |].
      auto.
Qed.

Lemma chat_history_alternates_witness :
  exists new st',
    ask_all live_env [canada_question; u "bye"; u "exit now"]
      (started live_env tt)
      = ([Ret true; Ret true; Ret true], st')
    /\ exchanges live_env (started live_env tt)
         [canada_question; u "bye"; u "exit now"] new st'
    /\ chat_history (session st') = Some ([] ++ new)
    /\ alternates ([] ++ new) = true
    /\ ([] ++ new <> [] ->
        (exists q t, [] ++ new = (You, q) :: t)
        /\ (exists t a, [] ++ new = t ++ [(Bot, a)])).
Proof.
  exact (chat_history_alternates live_env
           [canada_question; u "bye"; u "exit now"]
           (started live_env tt) [] started_live_keys eq_refl eq_refl).
Defined.

(** ** Runs of the script *)

Lemma triple_bind {W A B} (P : State W -> Prop) (m : Py W A)
    (k : A -> Py W B) (Q : A -> State W -> Prop)
    (R : B -> State W -> Prop) (X : State W -> Prop) :
  triple P m Q X ->
  (forall a, triple (Q a) (k a) R X) ->
  triple P (bind m k) R X.
Proof.
  intros Hm Hk st HP. specialize (Hm st HP). unfold bind.
  destruct (m st) as [[a|e|c] st']; try exact Hm.
  apply (Hk a st' Hm).
Qed.

(** A triple whose three exits all satisfy [X] says where the run ends. *)
Lemma triple_snd {W A} (P : State W -> Prop) (m : Py W A)
    (X : State W -> Prop) :
  triple P m (fun _ => X) X <-> (forall st, P st -> X (snd (m st))).
Proof.
  split; intros H st HP; specialize (H st HP);
    destruct (m st) as [[a|e|c] st']; exact H.
Qed.

Section Frame.
Context {W : Type} (E : Env W).
Context (J : SessionState -> list Event -> Prop) (HJ : Stable J).

Ltac stable :=
  unfold on_state in *; cbn [session events] in *;
  repeat first
    [ assumption
    | apply (stable_ui HJ); [reflexivity |]
    | apply (stable_chat HJ)
    | apply (stable_show HJ)
    | apply (stable_selected HJ)
    | apply (stable_initialized HJ)
    | apply (stable_disconnected HJ) ].

Lemma sample_buttons_keeps (inp : Inputs) (qs : list pystr) :
  forall (i : nat) (st : State W),
    on_state J st -> on_state J (snd (sample_buttons inp i qs st)).
Proof.
  induction qs as [|q qs IH]; intros i st Hst; [exact Hst |].
  cbn [sample_buttons]. run.
  destruct (sample_clicked inp i).
  - destruct (db_connected (session st)) as [[|]|]; cbn [snd].
    + stable.
    + apply IH. stable.
    + apply IH. stable.
  - apply IH. exact Hst.
Qed.

Lemma sidebar_keeps (inp : Inputs) (st : State W) :
  on_state J st -> on_state J (snd (sidebar inp st)).
Proof.
  intros Hst. unfold sidebar. run.
  destruct (db_connected (session st)) as [[|]|] eqn:Hdb;
    cbn [is_absent session events db_connected set_db_connected];
    try rewrite Hdb;
    destruct (clear_history_clicked inp), (show_db_info_clicked inp);
    cbn [snd session events];
    try (apply sample_buttons_keeps); stable.
Qed.

(** Past the gate the session is connected. *)
Lemma connection_gate_triple (inp : Inputs) :
  triple (on_state J) (connection_gate (W := W) inp)
    (fun _ st => on_state J st /\ db_connected (session st) = Some true)
    (on_state J).
Proof.
  intros st Hst. unfold connection_gate. run.
  destruct (db_connected (session st)) as [[|]|] eqn:Hdb; cbn [negb].
  - split; [exact Hst | exact Hdb].
  - destruct (retry_clicked inp); stable.
  - destruct (retry_clicked inp); stable.
Qed.

Lemma handle_form_keeps (inp : Inputs) (P : State W -> Prop) :
  (submitted inp && truthy (user_input inp) = true ->
   forall st, P st -> on_state J st ->
     on_state J (snd (process_question E (user_input inp) st))) ->
  forall st, P st -> on_state J st ->
    on_state J (snd (handle_form E inp st)).
Proof.
  intros Hpq st HP Hst. unfold handle_form.
  destruct (submitted inp && truthy (user_input inp)).
  - specialize (Hpq eq_refl st HP Hst). run.
    destruct (process_question E (user_input inp) st) as [[r|e|c] st'];
      cbn [snd] in *; stable.
  - run. destruct (clear_input inp), (help_button inp); cbn [snd]; stable.
Qed.

(** The script keeps what its initialisation block keeps and what
    [process_question] keeps on the question the form submits, in the
    sessions where the form calls it. *)
Lemma script_keeps_submitted (inp : Inputs) :
  (forall st, on_state J st ->
     on_state J (snd (initialize_components E st))) ->
  (submitted inp && truthy (user_input inp) = true ->
   forall st, db_connected (session st) = Some true ->
     chat_history (session st) <> None -> on_state J st ->
     on_state J (snd (process_question E (user_input inp) st))) ->
  forall st, on_state J st -> on_state J (snd (script E inp st)).
Proof.
  intros Hinit Hpq. apply triple_snd. unfold script.
  apply triple_bind with (Q := fun _ => on_state J);
    [apply triple_snd, sidebar_keeps |]; intros _.
  apply triple_bind with (Q := fun _ => on_state J);
    [apply triple_snd, Hinit |]; intros _.
  apply triple_bind with
    (Q := fun present st => on_state J st /\ present = chat_history (session st));
    [intros st Hst; split; [exact Hst | reflexivity] |]; intros present.
  apply triple_bind with
    (Q := fun _ st => on_state J st /\ chat_history (session st) <> None).
  { intros st [Hst ->]. run.
    destruct (chat_history (session st)) eqn:Hh; cbn [is_absent].
    - split; [exact Hst | congruence].
    - split; [stable | discriminate]. }
  intros _.
  apply triple_bind with
    (Q := fun _ st => on_state J st /\ chat_history (session st) <> None
                      /\ db_connected (session st) = Some true).
  { intros st [Hst Hh].
    pose proof (connection_gate_triple inp st Hst) as Hg.
    destruct (connection_gate inp st) as [[r|e|c] st'] eqn:Hrun;
      try exact Hg.
    destruct Hg as [Hg1 Hg2]. split; [exact Hg1 | split; [| exact Hg2]].
    revert Hrun. unfold connection_gate. run.
    destruct (db_connected (session st)) as [[|]|]; cbn [negb];
      try (destruct (retry_clicked inp); discriminate).
    intros H. inversion H. subst st'. exact Hh. }
  intros _.
  apply triple_bind with
    (Q := fun _ st => on_state J st /\ chat_history (session st) <> None
                      /\ db_connected (session st) = Some true).
  { intros st (Hst & Hh & Hdb). run. split; [exact Hst | auto]. }
  intros show.
  apply triple_bind with
    (Q := fun _ st => on_state J st /\ chat_history (session st) <> None
                      /\ db_connected (session st) = Some true).
  { intros st (Hst & Hh & Hdb). run.
    destruct (show && hide_db_info_clicked inp); [stable |].
    split; [exact Hst | auto]. }
  intros _. apply triple_snd. intros st (Hst & Hh & Hdb).
  apply handle_form_keeps with
    (P := fun st => db_connected (session st) = Some true
                    /\ chat_history (session st) <> None);
    [intros Hsub st0 [H1 H2]; apply Hpq; assumption | split; assumption |
     exact Hst].
Qed.

Lemma script_keeps (inp : Inputs) :
  (forall st, on_state J st ->
     on_state J (snd (initialize_components E st))) ->
  (forall q st, db_connected (session st) = Some true ->
     chat_history (session st) <> None -> on_state J st ->
     on_state J (snd (process_question E q st))) ->
  forall st, on_state J st -> on_state J (snd (script E inp st)).
Proof.
  intros Hinit Hpq. apply script_keeps_submitted; [exact Hinit |].
  intros _. apply Hpq.
Qed.

Lemma runs_keep (inps : list Inputs) :
  (forall st, on_state J st ->
     on_state J (snd (initialize_components E st))) ->
  (forall q st, db_connected (session st) = Some true ->
     chat_history (session st) <> None -> on_state J st ->
     on_state J (snd (process_question E q st))) ->
  forall st, on_state J st -> on_state J (runs E inps st).
Proof.
  intros Hinit Hpq. induction inps as [|inp inps IH]; intros st Hst.
  - exact Hst.
  - cbn [runs]. apply IH. apply script_keeps; assumption.
Qed.

End Frame.

(** ** Initialisation *)

Section Initialisation.
Context {W : Type} (E : Env W).

(** The three ways [initialize_database] can end: the key is empty; a
    constructor raised; the handles were built. *)
Lemma initialize_database_cases (st : State W) :
  exists h st',
    initialize_database E st = (Ret h, st')
    /\ ((h = (None, None, None)
         /\ session st' = session st
         /\ events st' = events st ++ [st_error api_key_not_found])
        \/ (h = (None, None, None)
            /\ session st' = set_db_connected false (session st)
            /\ exists e,
                 events st' =
                   events st ++ [st_error (connection_failed ++ str_exn e)])
        \/ (exists key d,
              h = (Some {| temperature := 0; openai_api_key := key |},
                   Some d,
                   Some {| chain_llm :=
                             {| temperature := 0; openai_api_key := key |};
                           chain_db := d; chain_verbose := true |})
              /\ session st' = set_db_connected true (session st)
              /\ events st' = events st)).
Proof.
  unfold initialize_database, initialize_database_try.
  destruct (truthy (os_getenv E (u "OPENAI_API_KEY") (u "YOUR API KEY")));
    cbn [negb]; run.
  - destruct (ext_ChatOpenAI E _ (world st)) as [[e|] w1].
    { eexists _, _. split; [reflexivity |]. right; left.
      split; [reflexivity | split; [reflexivity | eexists; reflexivity]]. }
    run. destruct (ext_from_uri E _ w1) as [[e|] w2].
    { eexists _, _. split; [reflexivity |]. right; left.
      split; [reflexivity | split; [reflexivity | eexists; reflexivity]]. }
    run. destruct (ext_from_llm E _ w2) as [[e|] w3].
    { eexists _, _. split; [reflexivity |]. right; left.
      split; [reflexivity | split; [reflexivity | eexists; reflexivity]]. }
    run. eexists _, _. split; [reflexivity |]. right; right.
    eexists _, _. repeat split.
  - eexists _, _. split; [reflexivity |]. left. repeat split.
Qed.

(** An exception in the [try] block ends in the [except] branch: it is
    reported, [db_connected] is set to [False], no handle is returned. *)
Lemma initialize_database_failure (st : State W) (e : exn) (st1 : State W) :
  initialize_database_try E st = (Raise e, st1) ->
  initialize_database E st =
    (Ret (None, None, None),
     {| session := set_db_connected false (session st1);
        events := events st1 ++ [st_error (connection_failed ++ str_exn e)];
        world := world st1 |}).
Proof.
  intros H. unfold initialize_database. unfold try_except at 1.
  rewrite H. run. reflexivity.
Qed.

End Initialisation.

(** ** Two invariants of the script *)

Lemma session_inv_stable : Stable session_inv.
Proof.
  constructor; unfold session_inv, ready, handles_zero, history_alternates;
    cbn [set_chat_history set_show_db_info set_selected_question
         set_initialized set_db_connected
         llm db_chain db_connected initialized chat_history];
    try (intros; assumption).
  - intros s evs ev Hev (H1 & H2 & H3 & H4 & H5).
    repeat split; try tauto.
    apply Forall_app. split; [exact H5 |].
    constructor; [| constructor].
    intros t Ht. destruct ev; cbn in Hev, Ht; discriminate.
  - intros s evs (H1 & H2 & H3 & H4 & H5). repeat split; try tauto.
    intros h Hh. injection Hh as <-. reflexivity.
  - intros s evs b (H1 & H2 & H3 & H4 & H5). repeat split; try tauto.
    discriminate.
  - intros s evs (H1 & H2 & H3 & H4 & H5). repeat split; try tauto.
    + intros _; discriminate.
    + discriminate.
Qed.

Lemma not_ready_inv_stable (evs0 : list Event) : Stable (not_ready_inv evs0).
Proof.
  constructor; unfold not_ready_inv;
    cbn [set_chat_history set_show_db_info set_selected_question
         set_initialized set_db_connected db_connected initialized];
    try (intros; assumption).
  - intros s evs ev Hev (H1 & H2 & new & -> & Hnew).
    repeat split; try assumption.
    exists (new ++ [ev]). split; [symmetry; apply app_assoc |].
    apply Forall_app. split; [exact Hnew | repeat constructor; exact Hev].
  - intros s evs b (H1 & H2 & H3). repeat split; try assumption.
    discriminate.
  - intros s evs (H1 & H2 & H3). repeat split; try assumption.
    discriminate.
Qed.

Section Invariants.
Context {W : Type} (E : Env W).

Lemma initialize_components_inv (st : State W) :
  on_state session_inv st ->
  on_state session_inv (snd (initialize_components E st)).
Proof.
  intros Hst. unfold initialize_components. run.
  destruct (initialized (session st)) eqn:Hinit; cbn [is_absent];
    [exact Hst |].
  run.
  match goal with
  | |- context [initialize_database E ?s] =>
      destruct (initialize_database_cases E s)
        as (h & st' & Hrun & Hcases);
      rewrite Hrun
  end.
  cbn [session events] in Hcases.
  destruct Hst as (H1 & H2 & H3 & H4 & H5). specialize (H1 Hinit).
  assert (Hui : forall evs', Forall (fun ev => is_pipeline_call ev = false) evs' ->
                  Forall zero_temperature (events st ++ evs')).
  { intros evs' Hevs'. apply Forall_app. split; [exact H5 |].
    eapply Forall_impl; [| exact Hevs'].
    intros ev Hev t Ht. destruct ev; cbn in Hev, Ht; discriminate. }
  destruct Hcases as [(-> & Hs & Hev) | [(-> & Hs & e & Hev)
                     | (key & d & -> & Hs & Hev)]];
    unfold on_state, session_inv, ready, handles_zero, history_alternates;
    cbn [snd session events set_handles set_initialized llm db_chain
         db_connected initialized chat_history];
    rewrite Hs, Hev; cbn [db_connected chat_history set_db_connected];
    rewrite <- !app_assoc; cbn [app].
  - repeat split; try discriminate; try exact H4;
      try (intros; congruence).
    apply Hui. repeat constructor.
  - repeat split; try discriminate; try exact H4;
      try (intros; congruence).
    apply Hui. repeat constructor.
  - repeat split; try discriminate; try exact H4.
    + intros _. eauto.
    + intros l Hl. injection Hl as <-. reflexivity.
    + intros c Hc. injection Hc as <-. reflexivity.
    + apply Hui. repeat constructor.
Qed.

Lemma process_question_inv (q : pystr) (st : State W) :
  db_connected (session st) = Some true ->
  chat_history (session st) <> None ->
  on_state session_inv st ->
  on_state session_inv (snd (process_question E q st)).
Proof.
  intros Hdb Hh (H1 & H2 & H3 & H4 & H5).
  destruct (H2 Hdb) as (l & c & Hl & Hc).
  destruct (chat_history (session st)) as [h|] eqn:Hh'; [| congruence].
  assert (Halt : alternates h = true) by (apply H4; exact Hh').
  destruct (is_exit E q) eqn:Hq.
  - rewrite (process_question_exit E q st Hq).
    unfold on_state, session_inv. cbn [snd session events].
    repeat split; try assumption; try apply H3.
    apply Forall_app. split; [exact H5 |].
    repeat constructor; intros t Ht; discriminate.
  - destruct (process_question_pipeline E q st h (Some l) (Some c)
                Hq Hh' Hl Hc)
      as (ctx & st1 & a & st2 & Hr & Hcase & Hp & Hha & Hev).
    rewrite Hp. cbn [snd].
    assert (Hs2 : session st2 = session (asked q h st)).
    { destruct (retrieve_from_db_returns E q (Some c) (asked q h st))
        as (ctx' & st1' & Hr' & Hs1).
      rewrite Hr in Hr'. injection Hr' as <- <-.
      destruct (call_llm_outcome E (Some l) (synthesis_messages q ctx) st1)
        as (st2' & Hs2' & Hllm).
      destruct Hcase as [Ha | (e & He & _)];
        destruct Hllm as [[a' Ha'] | [e' He']]; congruence. }
    destruct (answered_session q a h st st2 Hs2) as (Hh2 & Hl2 & Hc2).
    unfold on_state, session_inv, ready, handles_zero, history_alternates.
    rewrite Hl2, Hc2, Hh2, (Hev l c eq_refl eq_refl).
    assert (Hinit2 : initialized (session (answered q a h st2))
                     = initialized (session st))
      by (unfold answered; cbn [session]; rewrite Hs2; reflexivity).
    assert (Hdb2 : db_connected (session (answered q a h st2))
                   = db_connected (session st))
      by (unfold answered; cbn [session]; rewrite Hs2; reflexivity).
    rewrite Hinit2, Hdb2.
    repeat split; try assumption; try apply H3.
    { intros h' Hh3. injection Hh3 as <-.
      rewrite alternates_app by exact Halt. reflexivity. }
    apply Forall_app. split; [exact H5 |].
    destruct H3 as [H3l H3c].
    repeat constructor; intros t Ht; cbn in Ht; try discriminate;
      injection Ht as <-; [apply (H3c c Hc) | apply (H3l l Hl)].
Qed.

Lemma initialize_components_not_ready (evs0 : list Event) (st : State W) :
  on_state (not_ready_inv evs0) st ->
  on_state (not_ready_inv evs0) (snd (initialize_components E st)).
Proof.
  intros Hst. unfold initialize_components. run.
  assert (H1 : initialized (session st) <> None) by apply Hst.
  destruct (initialized (session st)) eqn:Hinit; cbn [is_absent];
    [exact Hst | congruence].
Qed.

End Invariants.

(** ** No exception leaves the script *)

Lemma safe_bind {W A B} (P : State W -> Prop) (m : Py W A)
    (k : A -> Py W B) (Q : A -> State W -> Prop)
    (R : B -> State W -> Prop) :
  safe P m Q -> (forall a, safe (Q a) (k a) R) -> safe P (bind m k) R.
Proof.
  intros Hm Hk st HP. specialize (Hm st HP). unfold bind.
  destruct (m st) as [[a|e|c] st']; try exact Hm.
  apply (Hk a st' Hm).
Qed.

Section Safety.
Context {W : Type} (E : Env W).

Lemma sample_buttons_safe (inp : Inputs) (qs : list pystr) :
  forall i : nat,
    safe anywhere (sample_buttons (W := W) inp i qs) (fun _ => anywhere).
Proof.
  induction qs as [|q qs IH]; intros i st _; [exact I |].
  cbn [sample_buttons]. run.
  destruct (sample_clicked inp i).
  - destruct (db_connected (session st)) as [[|]|]; try exact I;
      apply IH; exact I.
  - apply IH; exact I.
Qed.

Lemma sidebar_safe (inp : Inputs) :
  safe anywhere (sidebar (W := W) inp) (fun _ => anywhere).
Proof.
  intros st _. unfold sidebar. run.
  destruct (db_connected (session st)) as [[|]|] eqn:Hdb;
    cbn [is_absent session events db_connected set_db_connected];
    try rewrite Hdb;
    destruct (clear_history_clicked inp), (show_db_info_clicked inp);
    try exact I; apply sample_buttons_safe; exact I.
Qed.

Lemma initialize_components_safe :
  safe anywhere (initialize_components E) (fun _ => anywhere).
Proof.
  intros st _. unfold initialize_components. run.
  destruct (initialized (session st)); cbn [is_absent]; [exact I |].
  run.
  match goal with
  | |- context [initialize_database E ?s] =>
      destruct (initialize_database_cases E s) as (h & st' & Hrun & _);
      rewrite Hrun
  end.
  destruct h as [[l d] c]. exact I.
Qed.

(** With a history in the session, [process_question] returns. *)
Lemma process_question_safe (q : pystr) :
  safe (fun st => chat_history (session st) <> None)
    (process_question E q) (fun _ => anywhere).
Proof.
  intros st Hh. unfold process_question.
  destruct (is_exit E q); [exact I |].
  run. destruct (chat_history (session st)) as [h|]; [| congruence].
  cbn [session events world llm db_chain set_chat_history].
  destruct (llm (session st)) as [l|];
    cbn [session events world llm db_chain set_chat_history]; [| exact I].
  destruct (db_chain (session st)) as [c|];
    cbn [session events world llm db_chain set_chat_history]; [| exact I].
  match goal with
  | |- context [generate_response E q l c ?s] =>
      destruct (generate_response_returns E q l c s) as (a & st2 & Hg & Hs);
      rewrite Hg
  end.
  cbn [session events world]. rewrite Hs.
  cbn [session chat_history set_chat_history]. exact I.
Qed.

Lemma script_safe (inp : Inputs) :
  safe anywhere (script E inp) (fun _ => anywhere).
Proof.
  unfold script.
  apply safe_bind with (Q := fun _ => anywhere); [apply sidebar_safe |].
  intros _.
  apply safe_bind with (Q := fun _ => anywhere);
    [apply initialize_components_safe |].
  intros _ st _. run.
  assert (Hform : forall st0 : State W,
             chat_history (session st0) <> None ->
             match handle_form E inp st0 with
             | (Raise _, _) => False
             | _ => True
             end).
  { intros st0 Hh. unfold handle_form.
    destruct (submitted inp && truthy (user_input inp)).
    - pose proof (process_question_safe (user_input inp) st0 Hh) as Hp.
      run. destruct (process_question E (user_input inp) st0)
        as [[r|e|c] st']; [exact I | exact Hp | exact I].
    - run. destruct (clear_input inp), (help_button inp); exact I. }
  assert (Hrest : forall st0 : State W,
             chat_history (session st0) <> None ->
             match
               (connection_gate inp ;;
                show <- get_flag show_db_info ;;
                when (show && hide_db_info_clicked inp)
                  (modify (set_show_db_info false) ;;
                   signal RerunException) ;;
                handle_form E inp) st0
             with
             | (Ret _, _) | (Ctl _, _) => True
             | (Raise _, _) => False
             end).
  { intros st0 Hh. unfold connection_gate. run.
    destruct (db_connected (session st0)) as [[|]|]; cbn [negb];
      try (destruct (retry_clicked inp); exact I).
    destruct ((match show_db_info (session st0) with
               | Some b => b
               | None => false
               end) && hide_db_info_clicked inp); [exact I |].
    specialize (Hform st0 Hh).
    destruct (handle_form E inp st0) as [[r|e|c] st']; auto. }
  destruct (chat_history (session st)) as [h|] eqn:Hh; cbn [is_absent].
  - apply Hrest. congruence.
  - apply Hrest. discriminate.
Qed.

(** X12. Whatever the session and the interaction, a run of the script
    ends normally or by a rerun or a stop: no exception reaches
    Streamlit. *)
Lemma script_never_raises (inp : Inputs) (st : State W) (e : exn)
    (st' : State W) :
  script E inp st <> (Raise e, st').
Proof.
  intros H. pose proof (script_safe inp st I) as Hs.
  rewrite H in Hs. exact Hs.
Qed.

End Safety.

(** ** The session as a whole *)

Lemma fresh_session_inv {W} (w : W) : on_state session_inv (fresh w).
Proof.
  unfold on_state, session_inv, ready, handles_zero, history_alternates.
  cbn. repeat split; try discriminate. constructor.
Qed.

(** Every session the script can reach satisfies the invariant. *)
Lemma reachable_session_inv {W} (E : Env W) (w : W) (inps : list Inputs) :
  on_state session_inv (runs E inps (fresh w)).
Proof.
  apply (runs_keep E session_inv session_inv_stable inps).
  - apply initialize_components_inv.
  - apply process_question_inv.
  - apply fresh_session_inv.
Qed.

(** The form calls [process_question] past the gate, in a connected
    session with a history: such a session holds the keys the function
    reads. *)
Lemma connected_has_keys (s : SessionState) (evs : list Event) :
  session_inv s evs ->
  db_connected s = Some true ->
  chat_history s <> None ->
  keys_present s.
Proof.
  intros (_ & Hready & _) Hdb Hh.
  destruct (Hready Hdb) as (l & c & Hl & Hc).
  unfold keys_present. rewrite Hl, Hc. repeat split; congruence.
Qed.

(** X13. In every session the script can reach, whatever buttons were
    clicked and questions submitted on the way, the history alternates:
    user and assistant entries in turn, user first, assistant last. *)
Lemma session_history_alternates {W} (E : Env W) (w : W)
    (inps : list Inputs) (h : list entry) :
  chat_history (session (runs E inps (fresh w))) = Some h ->
  alternates h = true.
Proof.
  destruct (reachable_session_inv E w inps) as (_ & _ & _ & H & _).
  apply H.
Qed.

Lemma session_history_alternates_witness :
  alternates [(You, canada_question); (Bot, canada_answer)] = true.
Proof.
  exact (session_history_alternates live_env tt
           [no_inputs; clear_history; submit canada_question; submit (u "quit")]
           [(You, canada_question); (Bot, canada_answer)] eq_refl).
Defined.

(** C7. The only chat model the script ever builds is built with
    temperature zero, and the chain of the Query Translator is built on
    that model.  So in any session, from its first run on and whatever
    the user does, every call made to a model (the Translator's chain
    call and the Synthesizer's chat call alike) is made with a handle
    whose temperature is zero, and the handles kept in the session have
    temperature zero. *)
Theorem model_calls_use_temperature_zero {W} (E : Env W) (w : W)
    (inps : list Inputs) :
  Forall zero_temperature (events (runs E inps (fresh w)))
  /\ handles_zero (session (runs E inps (fresh w))).
Proof.
  destruct (reachable_session_inv E w inps) as (_ & _ & H3 & _ & H5).
  split; assumption.
Qed.

Lemma model_calls_use_temperature_zero_witness :
  (Forall zero_temperature
     (events (runs live_env [no_inputs; submit canada_question; submit canada_question]
                (fresh tt)))
   /\ handles_zero
        (session (runs live_env [no_inputs; submit canada_question; submit canada_question]
                    (fresh tt))))
  /\ In (chain_call live_chain canada_question)
       (events (runs live_env [no_inputs; submit canada_question; submit canada_question]
                  (fresh tt))).
Proof.
  split.
  - exact (model_calls_use_temperature_zero live_env tt
             [no_inputs; submit canada_question; submit canada_question]).
  - vm_compute. tauto.
Defined.

(** C8. An exception while the handles are built ends in the [except]
    branch of [initialize_database]: it is reported, [db_connected] is
    set to [False] and no handle is returned.  And a session that is
    past initialisation and not connected stays so over any sequence of
    interactions: none of them reaches the Query Translator or the
    Answer Synthesizer, and nothing in the script sets [db_connected]
    back to [True]. *)
Theorem not_ready_session_stays_blocked {W} (E : Env W) (st0 : State W)
    (e : exn) (st1 : State W) (inps : list Inputs) (st : State W) :
  initialize_database_try E st0 = (Raise e, st1) ->
  initialized (session st) <> None ->
  db_connected (session st) <> Some true ->
  (exists st2,
     initialize_database E st0 = (Ret (None, None, None), st2)
     /\ db_connected (session st2) = Some false
     /\ events st2 =
          events st1 ++ [st_error (connection_failed ++ str_exn e)])
  /\ initialized (session (runs E inps st)) <> None
  /\ db_connected (session (runs E inps st)) <> Some true
  /\ exists new,
       events (runs E inps st) = events st ++ new /\ no_pipeline_call new.
Proof.
  intros Hfail Hinit Hdb. split.
  - eexists. split; [apply (initialize_database_failure E st0 e st1 Hfail) |].
    split; reflexivity.
  - apply (runs_keep E (not_ready_inv (events st))
             (not_ready_inv_stable (events st)) inps).
    + apply initialize_components_not_ready.
    + intros q st' Hdb' _ (_ & Hn & _). congruence.
    + repeat split; try assumption.
      exists []. split; [symmetry; apply app_nil_r | constructor].
Qed.

Lemma not_ready_session_stays_blocked_witness :
  initialized (session (started offline_env tt)) <> None
  /\ db_connected (session (started offline_env tt)) <> Some true
  /\ initialized
       (session (runs offline_env [submit canada_question; retry; submit canada_question]
                   (started offline_env tt))) <> None
  /\ db_connected
       (session (runs offline_env [submit canada_question; retry; submit canada_question]
                   (started offline_env tt))) <> Some true
  /\ exists new,
       events (runs offline_env [submit canada_question; retry; submit canada_question]
                 (started offline_env tt))
         = events (started offline_env tt) ++ new
       /\ no_pipeline_call new.
Proof.
  assert (H1 : initialized (session (started offline_env tt)) <> None)
    by (vm_compute; discriminate).
  assert (H2 : db_connected (session (started offline_env tt)) <> Some true)
    by (vm_compute; discriminate).
  split; [exact H1 |]. split; [exact H2 |].
  exact (proj2 (not_ready_session_stays_blocked offline_env (fresh tt)
                  cannot_connect (fresh tt)
                  [submit canada_question; retry; submit canada_question]
                  (started offline_env tt) eq_refl H1 H2)).
Defined.

(** C6, on the code.  With no [OPENAI_API_KEY] in the process
    environment and a reachable database, [os.getenv] hands back the
    placeholder [YOUR API KEY]; the test for a missing key does not fire,
    nothing is reported, the handles are built around the placeholder,
    [db_connected] becomes [True], and a submitted question reaches the
    pipeline. *)
Theorem missing_api_key_goes_unreported :
  environ no_key_env (u "OPENAI_API_KEY") = None
  /\ initialize_database no_key_env (fresh tt) =
       (Ret (Some placeholder_llm, Some the_database, Some placeholder_chain),
        {| session := set_db_connected true empty_session; events := [];
           world := tt |})
  /\ db_connected (session (started no_key_env tt)) = Some true
  /\ existsb is_pipeline_call
       (events (runs no_key_env [submit canada_question]
                  (started no_key_env tt))) = true.
Proof. repeat split; vm_compute; reflexivity. Qed.

(** The test on line 26 fires only for a key that is set and empty. *)
Lemma empty_api_key_is_reported :
  initialize_database empty_key_env (fresh tt) =
    (Ret (None, None, None),
     {| session := empty_session; events := [st_error api_key_not_found];
        world := tt |}).
Proof. vm_compute. reflexivity. Qed.

(** The retry button sets [initialized] to [False] without removing the
    key, so the next run does not initialise again. *)
Lemma retry_does_not_reinitialize :
  initialized (session (runs offline_env [retry] (started offline_env tt)))
    = Some false
  /\ llm (session (runs live_env [retry; no_inputs]
                     (started offline_env tt))) = Some None.
Proof. split; vm_compute; reflexivity. Qed.

(** * Further properties of the pipeline *)




(** X2. When the chain call fails, the text of the failure is what the
    Answer Synthesizer is given as context: the chat model is still
    called, once, with the question and
    [Error retrieving data: ] followed by the message. *)
Theorem translator_error_reaches_synthesizer {W} (E : Env W) (query : pystr)
    (l : ChatOpenAI) (c : SQLDatabaseChain) (st : State W) (e : exn)
    (w : W) :
  run_chain E c query (world st) = (inl e, w) ->
  exists a st',
    generate_response E query (Some l) (Some c) st = (Ret a, st')
    /\ events st' =
         events st ++
           [chain_call c query;
            llm_call l
              (synthesis_messages query (error_retrieving ++ str_exn e))].
Proof.
  intros Hrun.
  assert (Hr : retrieve_from_db E query (Some c) st =
               (Ret (error_retrieving ++ str_exn e),
                {| session := session st;
                   events := events st ++ [chain_call c query];
                   world := w |})).
  { unfold retrieve_from_db. run. rewrite Hrun. reflexivity. }
  rewrite (generate_response_unfold E query (Some l) (Some c) st _ _ Hr).
  match goal with
  | |- context [call_llm E ?l' ?m ?s] =>
      destruct (call_llm E l' m s) as [[a|e'|k] st2] eqn:Hllm
  end.
  - exists a, st2. split; [reflexivity |].
    rewrite (call_llm_log E _ _ _ _ _ Hllm). cbn [events].
    rewrite <- app_assoc. reflexivity.
  - exists (sorry_prefix ++ str_exn e'), st2. split; [reflexivity |].
    rewrite (call_llm_log E _ _ _ _ _ Hllm). cbn [events].
    rewrite <- app_assoc. reflexivity.
  - exfalso. revert Hllm. run.
    destruct (run_llm E l _ w) as [[?|?] ?]; discriminate.
Qed.

Lemma translator_error_reaches_synthesizer_witness :
  exists a st',
    generate_response offline_env canada_question (Some live_llm)
      (Some live_chain) (fresh tt) = (Ret a, st')
    /\ events st' =
         events (fresh tt) ++
           [chain_call live_chain canada_question;
            llm_call live_llm
              (synthesis_messages canada_question
                 (error_retrieving ++ str_exn cannot_connect))].
Proof.
  exact (translator_error_reaches_synthesizer offline_env canada_question
           live_llm live_chain (fresh tt) cannot_connect tt eq_refl).
Defined.

(** X3. When the chain answers with a [result] and the chat model
    replies, [generate_response] returns that reply unchanged; the
    context the chat model was given is the [result] with its leading
    and trailing white space removed. *)
Theorem answer_is_model_reply {W} (E : Env W) (query : pystr) (l : ChatOpenAI)
    (c : SQLDatabaseChain) (st : State W) (d : pydict) (w : W)
    (result a : pystr) (w' : W) :
  run_chain E c query (world st) = (inr d, w) ->
  dict_get d (u "result") = Some result ->
  run_llm E l (synthesis_messages query (str_strip result)) w = (inr a, w') ->
  generate_response E query (Some l) (Some c) st =
    (Ret a,
     {| session := session st;
        events := events st ++
          [chain_call c query;
           llm_call l (synthesis_messages query (str_strip result))];
        world := w' |}).
Proof.
  intros Hrun Hd Hllm.
  assert (Hr : retrieve_from_db E query (Some c) st =
               (Ret (str_strip result),
                {| session := session st;
                   events := events st ++ [chain_call c query];
                   world := w |})).
  { unfold retrieve_from_db. run. rewrite Hrun. run. rewrite Hd.
    reflexivity. }
  rewrite (generate_response_unfold E query (Some l) (Some c) st _ _ Hr).
  run. rewrite Hllm. rewrite <- app_assoc. reflexivity.
Qed.

Lemma answer_is_model_reply_witness :
  generate_response live_env canada_question (Some live_llm)
    (Some live_chain) (fresh tt) =
    (Ret canada_answer,
     {| session := session (fresh tt);
        events := events (fresh tt) ++
          [chain_call live_chain canada_question;
           llm_call live_llm
             (synthesis_messages canada_question (str_strip canada_result))];
        world := tt |}).
Proof.
  exact (answer_is_model_reply live_env canada_question live_llm live_chain
           (fresh tt) [(u "query", canada_question); (u "result", canada_result)]
           tt canada_result canada_answer tt eq_refl eq_refl eq_refl).
Defined.

(** X4. When the chain answers with a dictionary that has no [result]
    key, [retrieve_from_db] does not raise the [KeyError]: it returns
    [Error retrieving data: 'result']. *)
Theorem missing_result_key_becomes_text {W} (E : Env W) (query : pystr)
    (c : SQLDatabaseChain) (st : State W) (d : pydict) (w : W) :
  run_chain E c query (world st) = (inr d, w) ->
  dict_get d (u "result") = None ->
  retrieve_from_db E query (Some c) st =
    (Ret (error_retrieving ++ u "'result'"),
     {| session := session st; events := events st ++ [chain_call c query];
        world := w |}).
Proof.
  intros Hrun Hd. unfold retrieve_from_db. run. rewrite Hrun. run.
  rewrite Hd. reflexivity.
Qed.

Lemma missing_result_key_becomes_text_witness :
  retrieve_from_db keyless_env canada_question (Some live_chain) (fresh tt) =
    (Ret (error_retrieving ++ u "'result'"),
     {| session := session (fresh tt);
        events := events (fresh tt) ++ [chain_call live_chain canada_question];
        world := tt |}).
Proof.
  exact (missing_result_key_becomes_text keyless_env canada_question
           live_chain (fresh tt) [(u "query", canada_question)] tt
           eq_refl eq_refl).
Defined.

(** * Further properties of the orchestrator *)

(** What [process_question] does to the session, whatever the session:
    it leaves it alone, or appends the question to the history, or
    appends the question and an answer; and it never stops or reruns the
    script. *)
Lemma process_question_session {W} (E : Env W) (q : pystr) (st : State W) :
  (forall k, fst (process_question E q st) <> Ctl k)
  /\ (session (snd (process_question E q st)) = session st
      \/ exists h,
           chat_history (session st) = Some h
           /\ (session (snd (process_question E q st))
                 = set_chat_history (h ++ [(You, q)]) (session st)
               \/ exists a,
                    session (snd (process_question E q st))
                      = set_chat_history (h ++ [(You, q); (Bot, a)])
                          (session st))).
Proof.
  unfold process_question.
  destruct (is_exit E q); [split; [discriminate | left; reflexivity] |].
  run. destruct (chat_history (session st)) as [h|] eqn:Hh;
    [| split; [discriminate | left; reflexivity]].
  cbn [session events world llm db_chain set_chat_history].
  destruct (llm (session st)) as [l|];
    cbn [session events world llm db_chain set_chat_history fst snd];
    [| split; [discriminate | right; exists h; split; [reflexivity |];
                 left; reflexivity]].
  destruct (db_chain (session st)) as [c|];
    cbn [session events world llm db_chain set_chat_history fst snd];
    [| split; [discriminate | right; exists h; split; [reflexivity |];
                 left; reflexivity]].
  match goal with
  | |- context [generate_response E q l c ?s] =>
      destruct (generate_response_returns E q l c s) as (a & st2 & Hg & Hs);
      rewrite Hg
  end.
  cbn [session events world]. rewrite Hs.
  cbn [session chat_history set_chat_history fst snd
       db_connected llm db db_chain initialized show_db_info
       selected_question].
  split; [discriminate |]. right. exists h. split; [reflexivity |].
  right. exists a. rewrite <- app_assoc. reflexivity.
Qed.

(** X5. [process_question] changes nothing in the session but the
    history, and the history only by appending: after the call the
    session is the one before, or has the question appended, or the
    question and one answer.  The call never stops or reruns the script
    itself. *)
Theorem process_question_only_appends {W} (E : Env W) (question : pystr)
    (st : State W) :
  (forall k, fst (process_question E question st) <> Ctl k)
  /\ (session (snd (process_question E question st)) = session st
      \/ exists h,
           chat_history (session st) = Some h
           /\ (session (snd (process_question E question st))
                 = set_chat_history (h ++ [(You, question)]) (session st)
               \/ exists a,
                    session (snd (process_question E question st))
                      = set_chat_history
                          (h ++ [(You, question); (Bot, a)]) (session st))).
Proof. exact (process_question_session E question st). Qed.

(** X6. If the session holds a history but lacks the [llm] or the
    [db_chain] key, a question that is not an exit phrase takes the
    [except] branch of [process_question]: the call returns [False],
    reports [Error Occurred] and a hint, reaches no model, and leaves
    the question in the history without an answer. *)
Theorem missing_handle_key_returns_false {W} (E : Env W) (question : pystr)
    (st : State W) (h : list entry) :
  is_exit E question = false ->
  chat_history (session st) = Some h ->
  llm (session st) = None \/ db_chain (session st) = None ->
  exists m,
    process_question E question st =
      (Ret false,
       {| session := set_chat_history (h ++ [(You, question)]) (session st);
          events := events st ++
            [st_spinner analyzing; st_progress 0; st_progress 25;
             progress_empty; st_error (error_occurred ++ m);
             st_warning
               (u "Please try rephrasing your question or check the system status.")];
          world := world st |}).
Proof.
  intros Hq Hh Hkeys. unfold process_question. rewrite Hq. run. rewrite Hh.
  cbn [session events world llm db_chain set_chat_history].
  destruct (llm (session st)) as [l|] eqn:Hl;
    cbn [session events world llm db_chain set_chat_history].
  - destruct Hkeys as [Hk|Hk]; [discriminate |]. rewrite Hk.
    cbn [session events world]. eexists. rewrite <- !app_assoc.
    reflexivity.
  - eexists. rewrite <- !app_assoc. reflexivity.
Qed.

Lemma missing_handle_key_returns_false_witness :
  exists m,
    process_question live_env canada_question
      {| session := set_chat_history [] empty_session; events := [];
         world := tt |} =
      (Ret false,
       {| session :=
            set_chat_history ([] ++ [(You, canada_question)])
              (set_chat_history [] empty_session);
          events := [] ++
            [st_spinner analyzing; st_progress 0; st_progress 25;
             progress_empty; st_error (error_occurred ++ m);
             st_warning
               (u "Please try rephrasing your question or check the system status.")];
          world := tt |}).
Proof.
  exact (missing_handle_key_returns_false live_env canada_question
           {| session := set_chat_history [] empty_session; events := [];
              world := tt |} [] eq_refl eq_refl (or_introl eq_refl)).
Defined.

(** X7. If the session has no [chat_history] key, a question that is not
    an exit phrase makes [process_question] raise, at the first append,
    outside its [try]: nothing was logged or changed, and the exception
    leaves the function. *)
Theorem missing_history_key_raises {W} (E : Env W) (question : pystr)
    (st : State W) :
  is_exit E question = false ->
  chat_history (session st) = None ->
  exists m, process_question E question st = (Raise (AttributeError m), st).
Proof.
  intros Hq Hh. unfold process_question. rewrite Hq. run. rewrite Hh.
  eexists. reflexivity.
Qed.

Lemma missing_history_key_raises_witness :
  exists m,
    process_question live_env canada_question (fresh tt)
      = (Raise (AttributeError m), fresh tt).
Proof.
  exact (missing_history_key_raises live_env canada_question (fresh tt)
           eq_refl eq_refl).
Defined.

(** * Further properties of initialisation *)

(** X8. [initialize_database] never raises and returns all three
    handles or none.  When it returns them, nothing was reported,
    [db_connected] is [True], the chat model has temperature zero, the
    chain is built on that model and on the database handle, and the
    database handle is restricted to the table [global_student_migration]
    with two sample rows.  When it returns none, one error was reported
    and [db_connected] is [False] or was left as it was. *)
Theorem initialize_database_all_or_nothing {W} (E : Env W) (st : State W) :
  exists h st',
    initialize_database E st = (Ret h, st')
    /\ ((h = (None, None, None)
         /\ (exists m, events st' = events st ++ [st_error m])
         /\ (session st' = session st
             \/ session st' = set_db_connected false (session st)))
        \/ (exists l c,
              h = (Some l, Some the_database, Some c)
              /\ temperature l = 0%Z
              /\ chain_llm c = l
              /\ chain_db c = the_database
              /\ events st' = events st
              /\ session st' = set_db_connected true (session st))).
Proof.
  unfold initialize_database, initialize_database_try.
  destruct (truthy (os_getenv E (u "OPENAI_API_KEY") (u "YOUR API KEY")));
    cbn [negb]; run.
  - destruct (ext_ChatOpenAI E _ (world st)) as [[e|] w1].
    { eexists _, _. split; [reflexivity |]. left.
      split; [reflexivity |]. split; [eexists; reflexivity |].
      right; reflexivity. }
    run. destruct (ext_from_uri E _ w1) as [[e|] w2].
    { eexists _, _. split; [reflexivity |]. left.
      split; [reflexivity |]. split; [eexists; reflexivity |].
      right; reflexivity. }
    run. destruct (ext_from_llm E _ w2) as [[e|] w3].
    { eexists _, _. split; [reflexivity |]. left.
      split; [reflexivity |]. split; [eexists; reflexivity |].
      right; reflexivity. }
    run. eexists _, _. split; [reflexivity |]. right.
    eexists _, _. repeat split.
  - eexists _, _. split; [reflexivity |]. left.
    split; [reflexivity |]. split; [eexists; reflexivity |].
    left; reflexivity.
Qed.

(** X9. When [OPENAI_API_KEY] is set to the empty string,
    [initialize_database] reports that the key was not found and returns
    no handle, without building anything: no constructor is called (the
    outside world is untouched) and [db_connected] is not written. *)
Theorem empty_api_key_builds_nothing {W} (E : Env W) (st : State W) :
  environ E (u "OPENAI_API_KEY") = Some [] ->
  initialize_database E st =
    (Ret (None, None, None),
     {| session := session st;
        events := events st ++ [st_error api_key_not_found];
        world := world st |}).
Proof.
  intros Hkey. unfold initialize_database, initialize_database_try, os_getenv.
  rewrite Hkey. reflexivity.
Qed.

Lemma empty_api_key_builds_nothing_witness :
  initialize_database empty_key_env (started live_env tt) =
    (Ret (None, None, None),
     {| session := session (started live_env tt);
        events := events (started live_env tt) ++ [st_error api_key_not_found];
        world := world (started live_env tt) |}).
Proof.
  exact (empty_api_key_builds_nothing empty_key_env (started live_env tt)
           eq_refl).
Defined.

(** * Further properties of the exit test *)

Lemma ascii_lower_space (c : N) :
  is_ascii c = true -> is_space c = true -> ascii_lower c = c.
Proof.
  unfold is_ascii, is_space, ascii_lower. intros Ha Hs.
  destruct ((65 <=? c) && (c <=? 90))%N eqn:Hl; [| reflexivity].
  exfalso.
  apply andb_true_iff in Hl as [H1 H2].
  apply N.leb_le in H1, H2. apply N.ltb_lt in Ha.
  repeat rewrite orb_true_iff in Hs. repeat rewrite andb_true_iff in Hs.
  repeat rewrite N.leb_le in Hs. repeat rewrite N.eqb_eq in Hs.
  lia.
Qed.

Lemma blank_spaces (s : pystr) :
  blank s = true -> forallb is_ascii s = true /\ forallb is_space s = true.
Proof.
  induction s as [|c s IH]; cbn; [auto |].
  intros H. apply andb_true_iff in H as [Hc Hs].
  apply andb_true_iff in Hc as [H1 H2]. destruct (IH Hs) as [IH1 IH2].
  rewrite H1, H2, IH1, IH2. auto.
Qed.

Lemma blank_lower (s : pystr) : blank s = true -> map ascii_lower s = s.
Proof.
  induction s as [|c s IH]; cbn; [reflexivity |].
  intros H. apply andb_true_iff in H as [Hc Hs].
  apply andb_true_iff in Hc as [H1 H2].
  rewrite (ascii_lower_space c H1 H2), (IH Hs). reflexivity.
Qed.

Lemma lstrip_spaces (s : pystr) :
  forallb is_space s = true -> str_lstrip s = [].
Proof.
  induction s as [|c s IH]; cbn; [reflexivity |].
  intros H. apply andb_true_iff in H as [Hc Hs]. rewrite Hc. auto.
Qed.

Lemma lstrip_app (a b : pystr) :
  str_lstrip (a ++ b) =
    if forallb is_space a then str_lstrip b else str_lstrip a ++ b.
Proof.
  induction a as [|c a IH]; cbn; [reflexivity |].
  destruct (is_space c); cbn; [exact IH | reflexivity].
Qed.

Lemma forallb_rev {A} (f : A -> bool) (l : list A) :
  forallb f (rev l) = forallb f l.
Proof.
  induction l as [|x l IH]; cbn; [reflexivity |].
  rewrite forallb_app, IH. cbn. rewrite andb_true_r. apply andb_comm.
Qed.

Lemma rstrip_app_spaces (a post : pystr) :
  forallb is_space post = true -> str_rstrip (a ++ post) = str_rstrip a.
Proof.
  intros H. unfold str_rstrip. rewrite rev_app_distr, lstrip_app.
  rewrite forallb_rev, H. reflexivity.
Qed.

Lemma strip_spaces_around (pre s post : pystr) :
  forallb is_space pre = true ->
  forallb is_space post = true ->
  str_strip (pre ++ s ++ post) = str_strip s.
Proof.
  intros Hpre Hpost. unfold str_strip.
  rewrite lstrip_app, Hpre, lstrip_app.
  destruct (forallb is_space s) eqn:Hs.
  - rewrite (lstrip_spaces post Hpost), (lstrip_spaces s Hs). reflexivity.
  - apply rstrip_app_spaces. exact Hpost.
Qed.

(** X10. The exit test ignores ASCII white space around the question:
    for an ASCII question, putting spaces, tabs or newlines before and
    after it changes neither its normal form nor whether it is taken as
    an exit phrase. *)
Theorem exit_test_ignores_surrounding_space {W} (E : Env W)
    (pre question post : pystr) :
  forallb is_ascii question = true ->
  blank pre = true ->
  blank post = true ->
  str_strip (str_lower E (pre ++ question ++ post))
    = str_strip (str_lower E question)
  /\ is_exit E (pre ++ question ++ post) = is_exit E question.
Proof.
  intros Hq Hpre Hpost.
  destruct (blank_spaces pre Hpre) as [Hpre1 Hpre2].
  destruct (blank_spaces post Hpost) as [Hpost1 Hpost2].
  assert (Hnorm : str_strip (str_lower E (pre ++ question ++ post))
                  = str_strip (str_lower E question)).
  { unfold str_lower. rewrite !forallb_app, Hpre1, Hq, Hpost1. cbn [andb].
    rewrite !map_app, (blank_lower pre Hpre), (blank_lower post Hpost).
    apply strip_spaces_around; assumption. }
  split; [exact Hnorm |]. unfold is_exit. rewrite Hnorm. reflexivity.
Qed.

Lemma exit_test_ignores_surrounding_space_witness :
  str_strip (str_lower live_env (u "  " ++ u "Quit" ++ [9; 10]%N))
    = str_strip (str_lower live_env (u "Quit"))
  /\ is_exit live_env (u "  " ++ u "Quit" ++ [9; 10]%N)
     = is_exit live_env (u "Quit").
Proof.
  exact (exit_test_ignores_surrounding_space live_env (u "  ") (u "Quit")
           [9; 10]%N eq_refl eq_refl eq_refl).
Defined.



(** * Further properties of the script *)

(** X14. In every session the script can reach, [db_connected] being
    [True] means that both handles are in the session and are not
    [None], and that they were built with temperature zero. *)
Theorem connected_sessions_hold_handles {W} (E : Env W) (w : W)
    (inps : list Inputs) :
  db_connected (session (runs E inps (fresh w))) = Some true ->
  exists l c,
    llm (session (runs E inps (fresh w))) = Some (Some l)
    /\ db_chain (session (runs E inps (fresh w))) = Some (Some c)
    /\ temperature l = 0%Z
    /\ temperature (chain_llm c) = 0%Z.
Proof.
  intros Hdb.
  destruct (reachable_session_inv E w inps) as (_ & Hready & [Hl Hc] & _).
  destruct (Hready Hdb) as (l & c & Hl' & Hc').
  exists l, c. auto.
Qed.

Lemma connected_sessions_hold_handles_witness :
  exists l c,
    llm (session (runs live_env [no_inputs; submit canada_question] (fresh tt)))
      = Some (Some l)
    /\ db_chain (session (runs live_env [no_inputs; submit canada_question]
                            (fresh tt))) = Some (Some c)
    /\ temperature l = 0%Z
    /\ temperature (chain_llm c) = 0%Z.
Proof.
  exact (connected_sessions_hold_handles live_env tt
           [no_inputs; submit canada_question] eq_refl).
Defined.

Lemma handles_fixed_stable (s0 : SessionState) : Stable (handles_fixed s0).
Proof.
  constructor; unfold handles_fixed;
    cbn [set_chat_history set_show_db_info set_selected_question
         set_initialized set_db_connected llm db db_chain initialized];
    try (intros; assumption).
  intros s evs b (_ & H). split; [discriminate | exact H].
Qed.

Lemma initialize_components_skipped {W} (E : Env W) (st : State W) :
  initialized (session st) <> None ->
  initialize_components E st = (Ret tt, st).
Proof.
  intros H. unfold initialize_components. run.
  destruct (initialized (session st)); [reflexivity | congruence].
Qed.

(** X15. Once the [initialized] key is in the session, no interaction
    builds the handles again: over any sequence of runs, the Retry
    button included, [llm], [db] and [db_chain] stay what they were and
    the key stays in the session. *)
Theorem handles_are_built_once {W} (E : Env W) (inps : list Inputs)
    (st : State W) :
  initialized (session st) <> None ->
  initialized (session (runs E inps st)) <> None
  /\ llm (session (runs E inps st)) = llm (session st)
  /\ db (session (runs E inps st)) = db (session st)
  /\ db_chain (session (runs E inps st)) = db_chain (session st).
Proof.
  intros Hinit.
  apply (runs_keep E (handles_fixed (session st))
           (handles_fixed_stable (session st)) inps).
  - intros st0 H0. rewrite initialize_components_skipped; [exact H0 |].
    apply H0.
  - intros q st0 _ _ (H1 & H2 & H3 & H4).
    destruct (process_question_session E q st0)
      as (_ & [Hs | (h & _ & [Hs | (a & Hs)])]);
      unfold on_state, handles_fixed; rewrite Hs;
      cbn [set_chat_history llm db db_chain initialized]; auto.
  - repeat split. exact Hinit.
Qed.

Lemma handles_are_built_once_witness :
  initialized (session (runs live_env [retry; no_inputs; submit canada_question]
                          (started offline_env tt))) <> None
  /\ llm (session (runs live_env [retry; no_inputs; submit canada_question]
                     (started offline_env tt)))
     = llm (session (started offline_env tt))
  /\ db (session (runs live_env [retry; no_inputs; submit canada_question]
                    (started offline_env tt)))
     = db (session (started offline_env tt))
  /\ db_chain (session (runs live_env [retry; no_inputs; submit canada_question]
                          (started offline_env tt)))
     = db_chain (session (started offline_env tt)).
Proof.
  apply (handles_are_built_once live_env
           [retry; no_inputs; submit canada_question]
           (started offline_env tt)).
  vm_compute. discriminate.
Defined.

Lemma quiet_inv_stable (evs0 : list Event) (s0 : SessionState) :
  Stable (quiet_inv evs0 s0).
Proof.
  constructor; unfold quiet_inv;
    cbn [set_chat_history set_show_db_info set_selected_question
         set_initialized set_db_connected chat_history];
    try (intros; assumption).
  - intros s evs ev Hev ((new & -> & Hnew) & Hh).
    split; [| exact Hh].
    exists (new ++ [ev]). split; [symmetry; apply app_assoc |].
    apply Forall_app. split; [exact Hnew | repeat constructor; exact Hev].
  - intros s evs (H & _). split; [exact H | right; reflexivity].
Qed.

Lemma initialize_components_quiet {W} (E : Env W) (evs0 : list Event)
    (s0 : SessionState) (st : State W) :
  on_state (quiet_inv evs0 s0) st ->
  on_state (quiet_inv evs0 s0) (snd (initialize_components E st)).
Proof.
  intros ((new & Hev0 & Hnew) & Hh). unfold initialize_components. run.
  destruct (initialized (session st)); cbn [is_absent];
    [split; [exists new; auto | exact Hh] |].
  run.
  match goal with
  | |- context [initialize_database E ?s] =>
      destruct (initialize_database_cases E s)
        as (h & st' & Hrun & Hcases);
      rewrite Hrun
  end.
  cbn [session events] in Hcases.
  assert (Hgrow : forall evs',
             Forall (fun ev => is_pipeline_call ev = false) evs' ->
             exists new', events st ++ evs' = evs0 ++ new'
                          /\ no_pipeline_call new').
  { intros evs' Hevs'. exists (new ++ evs'). rewrite Hev0.
    split; [symmetry; apply app_assoc |].
    apply Forall_app. split; assumption. }
  destruct Hcases as [(-> & Hs & Hev) | [(-> & Hs & e & Hev)
                     | (key & d & -> & Hs & Hev)]];
    unfold on_state, quiet_inv;
    cbn [snd session events set_handles set_initialized chat_history];
    rewrite Hs, Hev; cbn [chat_history set_db_connected];
    rewrite <- !app_assoc; cbn [app];
    (split; [apply Hgrow; repeat constructor | exact Hh]).
Qed.

(** X16. A run in which the form is not submitted, or is submitted with
    an empty input, reaches no model and appends nothing to the history:
    the history is the one before the run, or was emptied by the Clear
    button. *)
Theorem unsubmitted_run_is_quiet {W} (E : Env W) (inp : Inputs)
    (st : State W) :
  submitted inp && truthy (user_input inp) = false ->
  (exists new,
     events (snd (script E inp st)) = events st ++ new
     /\ no_pipeline_call new)
  /\ (chat_history (session (snd (script E inp st)))
        = chat_history (session st)
      \/ chat_history (session (snd (script E inp st))) = Some []).
Proof.
  intros Hsub.
  apply (script_keeps_submitted E (quiet_inv (events st) (session st))
           (quiet_inv_stable (events st) (session st)) inp).
  - apply initialize_components_quiet.
  - intros H. congruence.
  - split; [| left; reflexivity].
    exists []. split; [symmetry; apply app_nil_r | constructor].
Qed.

Lemma unsubmitted_run_is_quiet_witness :
  (exists new,
     events (snd (script live_env (submit []) (started live_env tt)))
       = events (started live_env tt) ++ new
     /\ no_pipeline_call new)
  /\ (chat_history (session (snd (script live_env (submit [])
                                    (started live_env tt))))
        = chat_history (session (started live_env tt))
      \/ chat_history (session (snd (script live_env (submit [])
                                       (started live_env tt)))) = Some []).
Proof.
  exact (unsubmitted_run_is_quiet live_env (submit []) (started live_env tt)
           eq_refl).
Defined.

(** X17. The Clear button works in any session, connected or not,
    initialised or not: the run empties the history, says so, waits a
    second and reruns the script at once, before the initialisation
    block, the gate and the form.  A question submitted in the same run
    is not processed. *)
Theorem clear_history_empties_and_reruns {W} (E : Env W) (inp : Inputs)
    (st : State W) :
  clear_history_clicked inp = true ->
  exists status,
    script E inp st =
      (Ctl RerunException,
       {| session :=
            set_chat_history []
              (match db_connected (session st) with
               | Some _ => session st
               | None => set_db_connected false (session st)
               end);
          events := events st ++
            [status; st_success (u "Chat history cleared!"); time_sleep 1000];
          world := world st |}).
Proof.
  intros Hclear. unfold script, sidebar. run. rewrite Hclear.
  destruct (db_connected (session st)) as [[|]|] eqn:Hdb;
    cbn [is_absent session events db_connected set_db_connected];
    try rewrite Hdb; cbn [session events world]; eexists;
    rewrite <- !app_assoc; reflexivity.
Qed.

Lemma clear_history_empties_and_reruns_witness :
  exists status,
    script live_env clear_history
      (runs live_env [submit canada_question] (started live_env tt)) =
      (Ctl RerunException,
       {| session :=
            set_chat_history []
              (match db_connected
                       (session (runs live_env [submit canada_question]
                                   (started live_env tt))) with
               | Some _ =>
                   session (runs live_env [submit canada_question]
                              (started live_env tt))
               | None =>
                   set_db_connected false
                     (session (runs live_env [submit canada_question]
                                 (started live_env tt)))
               end);
          events :=
            events (runs live_env [submit canada_question]
                      (started live_env tt)) ++
            [status; st_success (u "Chat history cleared!"); time_sleep 1000];
          world := world (runs live_env [submit canada_question]
                            (started live_env tt)) |}).
Proof.
  exact (clear_history_empties_and_reruns live_env clear_history
           (runs live_env [submit canada_question] (started live_env tt))
           eq_refl).
Defined.

Lemma initialize_components_marks {W} (E : Env W) (st : State W) :
  exists st',
    initialize_components E st = (Ret tt, st')
    /\ initialized (session st') <> None.
Proof.
  unfold initialize_components. run.
  destruct (initialized (session st)) eqn:Hinit; cbn [is_absent].
  - exists st. split; [reflexivity | congruence].
  - run.
    match goal with
    | |- context [initialize_database E ?s] =>
        destruct (initialize_database_cases E s) as (h & st' & Hrun & _);
        rewrite Hrun
    end.
    destruct h as [[l d] c]. eexists. split; [reflexivity |].
    cbn [session initialized set_initialized]. discriminate.
Qed.

(** X18. A run reaches the end of the script only in a connected
    session: if the script returns, rather than stopping at the gate or
    rerunning, then [db_connected] is [True], the session is marked
    initialised and it has a history. *)
Theorem completed_run_is_connected {W} (E : Env W) (inp : Inputs)
    (st st' : State W) :
  script E inp st = (Ret tt, st') ->
  db_connected (session st') = Some true
  /\ initialized (session st') <> None
  /\ chat_history (session st') <> None.
Proof.
  assert (T : triple anywhere (script E inp)
                (fun _ s => db_connected (session s) = Some true
                            /\ initialized (session s) <> None
                            /\ chat_history (session s) <> None)
                anywhere).
  { unfold script.
    apply triple_bind with (Q := fun _ => anywhere).
    { intros st0 _. destruct (sidebar inp st0) as [[r|e|k] st1]; exact I. }
    intros _.
    apply triple_bind with
      (Q := fun _ s => initialized (session s) <> None).
    { intros st0 _.
      destruct (initialize_components_marks E st0) as (st1 & -> & H).
      exact H. }
    intros _ st0 Hinit. unfold connection_gate, handle_form. run.
    assert (Hform : forall s : State W,
               db_connected (session s) = Some true ->
               initialized (session s) <> None ->
               chat_history (session s) <> None ->
               match
                 (show <- get_flag show_db_info ;;
                  when (show && hide_db_info_clicked inp)
                    (modify (set_show_db_info false) ;;
                     signal RerunException) ;;
                  handle_form E inp) s
               with
               | (Ret _, s') =>
                   db_connected (session s') = Some true
                   /\ initialized (session s') <> None
                   /\ chat_history (session s') <> None
               | _ => True
               end).
    { intros s H1 H2 H3. unfold handle_form. run.
      destruct ((match show_db_info (session s) with
                 | Some b => b
                 | None => false
                 end) && hide_db_info_clicked inp); [exact I |].
      destruct (submitted inp && truthy (user_input inp)).
      - run. destruct (process_question E (user_input inp) s)
          as [[r|e|k] s']; exact I.
      - run. destruct (clear_input inp); [exact I |].
        destruct (help_button inp); cbn [session]; auto. }
    destruct (chat_history (session st0)) as [h|] eqn:Hh; cbn [is_absent];
      cbn [session events world db_connected set_chat_history].
    - destruct (db_connected (session st0)) as [[|]|] eqn:Hdb; cbn [negb];
        try (destruct (retry_clicked inp); exact I).
      apply Hform; congruence.
    - destruct (db_connected (session st0)) as [[|]|] eqn:Hdb; cbn [negb];
        try (destruct (retry_clicked inp); exact I).
      apply Hform; cbn [session db_connected initialized chat_history
                        set_chat_history]; congruence. }
  intros Hrun. specialize (T st I). rewrite Hrun in T. exact T.
Qed.

Lemma completed_run_is_connected_witness :
  db_connected (session (snd (script live_env no_inputs (started live_env tt))))
    = Some true
  /\ initialized
       (session (snd (script live_env no_inputs (started live_env tt))))
     <> None
  /\ chat_history
       (session (snd (script live_env no_inputs (started live_env tt))))
     <> None.
Proof.
  apply (completed_run_is_connected live_env no_inputs (started live_env tt)).
  vm_compute. reflexivity.
Defined.

Lemma sample_buttons_first_click {W} (inp : Inputs) (qs : list pystr) :
  forall (i k : nat) (q : pystr) (st : State W),
    db_connected (session st) = Some true ->
    nth_error qs k = Some q ->
    sample_clicked inp (i + k) = true ->
    (forall j, j < k -> sample_clicked inp (i + j) = false) ->
    sample_buttons inp i qs st =
      (Ctl RerunException,
       {| session := set_selected_question (Some q) (session st);
          events := events st; world := world st |}).
Proof.
  induction qs as [|q0 qs IH]; intros i k q st Hdb Hnth Hk Hbefore.
  - destruct k; discriminate.
  - destruct k as [|k]; cbn [nth_error] in Hnth.
    + injection Hnth as ->. rewrite Nat.add_0_r in Hk.
      cbn [sample_buttons]. run. rewrite Hk, Hdb. reflexivity.
    + assert (H0 : sample_clicked inp i = false).
      { rewrite <- (Nat.add_0_r i). apply Hbefore. lia. }
      cbn [sample_buttons]. run. rewrite H0.
      apply (IH (S i) k q st Hdb Hnth).
      * rewrite <- Hk. f_equal. lia.
      * intros j Hj. replace (S i + j) with (i + S j) by lia.
        apply Hbefore. lia.
Qed.

(** X19. On a connected session, a click on a sample question (the
    first clicked one, counting from the top) stores that question as
    [selected_question] and reruns the script at once: the run touches
    neither the history nor the outside world and reaches no model, so
    the sample is not asked by the click itself. *)
Theorem sample_click_selects_and_reruns {W} (E : Env W) (inp : Inputs)
    (st : State W) (k : nat) (q : pystr) :
  db_connected (session st) = Some true ->
  clear_history_clicked inp = false ->
  nth_error sample_questions k = Some q ->
  sample_clicked inp k = true ->
  (forall j, j < k -> sample_clicked inp j = false) ->
  script E inp st =
    (Ctl RerunException,
     {| session :=
          set_selected_question (Some q)
            (if show_db_info_clicked inp
             then set_show_db_info true (session st)
             else session st);
        events := events st ++
          [st_success ([9989]%N ++ u " Database Connected")];
        world := world st |}).
Proof.
  intros Hdb Hclear Hnth Hk Hbefore. unfold script, sidebar. run.
  rewrite Hdb, Hclear. cbn [is_absent]. rewrite Hdb.
  cbn [session events world].
  destruct (show_db_info_clicked inp); cbn [session events world];
    rewrite (sample_buttons_first_click inp sample_questions 0 k q _)
      by (cbn [session set_show_db_info db_connected]; assumption);
    reflexivity.
Qed.

Lemma sample_click_selects_and_reruns_witness :
  script live_env (click_sample 3) (started live_env tt) =
    (Ctl RerunException,
     {| session :=
          set_selected_question (Some (u "What are the top 5 destinations?"))
            (session (started live_env tt));
        events := events (started live_env tt) ++
          [st_success ([9989]%N ++ u " Database Connected")];
        world := world (started live_env tt) |}).
Proof.
  refine (sample_click_selects_and_reruns live_env (click_sample 3)
            (started live_env tt) 3 (u "What are the top 5 destinations?")
            eq_refl eq_refl eq_refl eq_refl _).
  intros j Hj.
  destruct j as [|[|[|j]]]; [reflexivity | reflexivity | reflexivity | lia].
Defined.

(** X20. On a session that is not connected, the sample buttons select
    nothing: each clicked one only reports [Database not connected!],
    the loop runs to its end, and the session and the outside world are
    left as they were. *)
Theorem sample_click_needs_connection {W} (inp : Inputs) (qs : list pystr) :
  forall (i : nat) (st : State W),
    db_connected (session st) <> Some true ->
    exists reports,
      sample_buttons inp i qs st =
        (Ret tt,
         {| session := session st; events := events st ++ reports;
            world := world st |})
      /\ Forall (fun ev => ev = st_error db_not_connected) reports.
Proof.
  induction qs as [|q qs IH]; intros i st Hdb.
  - exists []. rewrite app_nil_r. destruct st. split; [reflexivity | constructor].
  - cbn [sample_buttons]. run.
    destruct (sample_clicked inp i).
    + assert (Hflag : (match db_connected (session st) with
                       | Some b => b
                       | None => false
                       end) = false).
      { destruct (db_connected (session st)) as [[|]|]; congruence. }
      rewrite Hflag.
      match goal with
      | |- context [sample_buttons inp (S i) qs ?s] =>
          destruct (IH (S i) s Hdb) as (reports & Hrun & Hall)
      end.
      rewrite Hrun. cbn [session events world].
      exists (st_error db_not_connected :: reports).
      rewrite <- app_assoc. split; [reflexivity |].
      constructor; [reflexivity | exact Hall].
    + apply IH. exact Hdb.
Qed.

Lemma sample_click_needs_connection_witness :
  exists reports,
    sample_buttons (click_sample 3) 0 sample_questions (started offline_env tt) =
      (Ret tt,
       {| session := session (started offline_env tt);
          events := events (started offline_env tt) ++ reports;
          world := world (started offline_env tt) |})
    /\ Forall (fun ev => ev = st_error db_not_connected) reports.
Proof.
  apply (sample_click_needs_connection (click_sample 3) sample_questions 0
           (started offline_env tt)).
  vm_compute. discriminate.
Defined.

(** * The chat display and the question count *)

Lemma for_each_bubbles (fuel : nat) :
  forall pre rest : list entry,
    List.length rest <= fuel ->
    for_each (chat_bubble (pre ++ rest))
      (range_fuel fuel (List.length pre) (List.length (pre ++ rest)) 2)
    = Some (bubbles rest).
Proof.
  induction fuel as [|fuel IH]; intros pre rest Hlen.
  - destruct rest; [reflexivity | cbn in Hlen; lia].
  - cbn [range_fuel]. rewrite length_app.
    destruct rest as [|x [|y rest]].
    + cbn [List.length]. rewrite Nat.add_0_r, Nat.ltb_irrefl. reflexivity.
    + cbn [List.length].
      assert (H1 : Nat.ltb (List.length pre) (List.length pre + 1) = true)
        by (apply Nat.ltb_lt; lia).
      rewrite H1. cbn [for_each]. unfold chat_bubble at 1.
      rewrite length_app. cbn [List.length].
      rewrite Nat.ltb_irrefl.
      assert (H2 : range_fuel fuel (List.length pre + 2)
                     (List.length pre + 1) 2 = []).
      { destruct fuel; [reflexivity |]. cbn [range_fuel].
        assert (H : Nat.ltb (List.length pre + 2) (List.length pre + 1) = false)
          by (apply Nat.ltb_ge; lia).
        rewrite H. reflexivity. }
      rewrite H2. reflexivity.
    + cbn [List.length].
      assert (H1 : Nat.ltb (List.length pre)
                     (List.length pre + S (S (List.length rest))) = true)
        by (apply Nat.ltb_lt; lia).
      rewrite H1. cbn [for_each]. unfold chat_bubble at 1.
      rewrite length_app. cbn [List.length].
      assert (H2 : Nat.ltb (List.length pre + 1)
                     (List.length pre + S (S (List.length rest))) = true)
        by (apply Nat.ltb_lt; lia).
      rewrite H2.
      rewrite (nth_error_app2 pre) by lia. rewrite Nat.sub_diag.
      rewrite (nth_error_app2 pre) by lia.
      replace (List.length pre + 1 - List.length pre) with 1 by lia.
      cbn [nth_error].
      specialize (IH (pre ++ [x; y]) rest).
      rewrite <- app_assoc in IH. cbn [app] in IH.
      rewrite !length_app in IH. cbn [List.length] in IH.
      rewrite IH by (cbn in Hlen; lia).
      reflexivity.
Qed.

Lemma bubbles_length_aux (n : nat) :
  forall h : list entry,
    List.length h <= n ->
    List.length (bubbles h) = 2 * Nat.div (List.length h) 2.
Proof.
  induction n as [|n IH]; intros h Hlen.
  - destruct h; [reflexivity | cbn in Hlen; lia].
  - destruct h as [|x [|y rest]]; [reflexivity | reflexivity |].
    cbn [bubbles List.length].
    rewrite IH by (cbn in Hlen; lia).
    replace (S (S (List.length rest))) with (1 * 2 + List.length rest) by lia.
    rewrite Nat.div_add_l by lia. lia.
Qed.

(** X21. The chat display never subscripts the history out of range.
    It shows the entries two by two by position, the first of each pair
    as the user's message and the second as the assistant's, whatever
    their speaker tags; a last entry without a partner is not shown.  So
    it shows twice as many bubbles as the half of the history's length,
    the number the sidebar reports as questions asked. *)
Theorem chat_display_pairs_entries (h : list entry) :
  chat_display h = Some (bubbles h)
  /\ List.length (bubbles h) = 2 * Nat.div (List.length h) 2.
Proof.
  split.
  - destruct h as [|x rest]; [reflexivity |].
    unfold chat_display, py_range.
    apply (for_each_bubbles (List.length (x :: rest)) [] (x :: rest)).
    lia.
  - apply (bubbles_length_aux (List.length h)). lia.
Qed.

Lemma alternates_counts_aux (n : nat) :
  forall h : list entry,
    List.length h <= n -> alternates h = true ->
    List.length h = 2 * List.length (filter is_user_entry h).
Proof.
  induction n as [|n IH]; intros h Hlen Hh.
  - destruct h; [reflexivity | cbn in Hlen; lia].
  - destruct h as [|[s1 t1] [|[s2 t2] rest]]; try reflexivity;
      try discriminate.
    cbn [alternates] in Hh. apply andb_true_iff in Hh as [Hs Hrest].
    apply andb_true_iff in Hs as [H1 H2].
    apply pystr_eqb_eq in H1, H2. subst s1 s2.
    cbn [filter]. unfold is_user_entry at 1 2. cbn [fst].
    change (pystr_eqb You You) with true.
    change (pystr_eqb Bot You) with false.
    cbn [List.length]. rewrite (IH rest) by (cbn in Hlen; lia || exact Hrest).
    lia.
Qed.

(** X22. In every session the script can reach, the number the sidebar
    and the footer show as questions asked, half of the history's
    length, is exactly the number of user entries in the history, and
    the history's length is twice that number: every question counted
    has its answer. *)
Theorem chat_count_counts_questions {W} (E : Env W) (w : W)
    (inps : list Inputs) (h : list entry) :
  chat_history (session (runs E inps (fresh w))) = Some h ->
  chat_count (session (runs E inps (fresh w)))
    = List.length (filter is_user_entry h)
  /\ List.length h = 2 * chat_count (session (runs E inps (fresh w))).
Proof.
  intros Hh.
  destruct (reachable_session_inv E w inps) as (_ & _ & _ & Halt & _).
  specialize (Halt h Hh).
  pose proof (alternates_counts_aux (List.length h) h (le_n _) Halt) as Hc.
  unfold chat_count. rewrite Hh. rewrite Hc at 1 3.
  rewrite Nat.mul_comm, Nat.div_mul by lia. split; lia.
Qed.

Lemma chat_count_counts_questions_witness :
  chat_count
    (session (runs live_env [no_inputs; submit canada_question; submit (u "bye");
                             submit canada_question] (fresh tt)))
    = List.length
        (filter is_user_entry
           [(You, canada_question); (Bot, canada_answer);
            (You, canada_question); (Bot, canada_answer)])
  /\ List.length
       [(You, canada_question); (Bot, canada_answer);
        (You, canada_question); (Bot, canada_answer)]
     = 2 * chat_count
             (session (runs live_env [no_inputs; submit canada_question;
                                      submit (u "bye"); submit canada_question]
                         (fresh tt))).
Proof.
  exact (chat_count_counts_questions live_env tt
           [no_inputs; submit canada_question; submit (u "bye");
            submit canada_question]
           [(You, canada_question); (Bot, canada_answer);
            (You, canada_question); (Bot, canada_answer)] eq_refl).
Defined.
